(** * ClickHouse MCP server: query guard, metadata service and protocol adapter

    A shallow embedding of [src/clickhouse-service.ts] and [src/index.ts].
    JavaScript strings are modelled as [string]; a character stands for
    the UTF-16 code unit of the same number, so the model covers text in
    the range U+0000..U+00FF.  Asynchronous calls are sequential in the
    source (every call is awaited), so [await] is plain sequencing in a
    state-and-exception monad. *)

From Stdlib Require Import Ascii String List NArith ZArith Lia Permutation.
From stdpp Require Import base strings list gmap.

(** ** JavaScript string primitives *)

Module JsString.

(** Code units that [String.prototype.trim] strips, below U+0100:
    TAB, LF, VT, FF, CR, SPACE and NO-BREAK SPACE. *)
Definition isWhiteSpace (c : ascii) : bool :=
  let n := N_of_ascii c in
  (N.leb 9 n && N.leb n 13) || N.eqb n 32 || N.eqb n 160.

Fixpoint trimStart (s : string) : string :=
  match s with
  | EmptyString => EmptyString
  | String c r => if isWhiteSpace c then trimStart r else s
  end.

Fixpoint trimEnd (s : string) : string :=
  match s with
  | EmptyString => EmptyString
  | String c r =>
      match trimEnd r with
      | EmptyString => if isWhiteSpace c then EmptyString else String c EmptyString
      | r' => String c r'
      end
  end.

Definition trim (s : string) : string := trimEnd (trimStart s).

(** Lower-case mapping of one code unit below U+0100: A-Z, and the
    Latin-1 capitals U+00C0..U+00DE except the multiplication sign. *)
Definition lowerChar (c : ascii) : ascii :=
  let n := N_of_ascii c in
  if (N.leb 65 n && N.leb n 90)
     || (N.leb 192 n && N.leb n 222 && negb (N.eqb n 215))
  then ascii_of_N (n + 32) else c.

Fixpoint toLowerCase (s : string) : string :=
  match s with
  | EmptyString => EmptyString
  | String c r => String (lowerChar c) (toLowerCase r)
  end.

(** [s.includes(needle)]: [needle] occurs at some position of [s]. *)
Fixpoint includes (s needle : string) : bool :=
  String.prefix needle s
  || match s with
     | EmptyString => false
     | String _ r => includes r needle
     end.

(** [arr.join(sep)] *)
Definition join (sep : string) (l : list string) : string := String.concat sep l.

(** A text without any of the code units that [trim] strips. *)
Fixpoint solid (s : string) : bool :=
  match s with
  | EmptyString => true
  | String c r => negb (isWhiteSpace c) && solid r
  end.

(** The declarative reading of "occurs somewhere in the text". *)
Definition Substring (needle s : string) : Prop :=
  exists a b, s = a +:+ needle +:+ b.

End JsString.

(** ** The query guard of [executeQuery] *)

Definition blockedKeywords : list string :=
  [ "insert"; "update"; "delete"; "drop"; "alter"; "create" ].

Definition normalizedQuery (query : string) : string :=
  JsString.toLowerCase (JsString.trim query).

(** The condition of the [if] at lines 85-92, with JavaScript's
    left-to-right [||]. *)
Definition isBlocked (query : string) : bool :=
  let n := normalizedQuery query in
  JsString.includes n "insert" ||
  JsString.includes n "update" ||
  JsString.includes n "delete" ||
  JsString.includes n "drop" ||
  JsString.includes n "alter" ||
  JsString.includes n "create".


(** ** Plain JavaScript objects used as string-keyed maps *)

Module JsObject.

(** An object created by the literal [{}]: its own enumerable properties
    in creation order, and its prototype slot ([None] while it is still
    [Object.prototype]). *)
Record t (V : Type) : Type := mk {
  ownProps : list (string * V);
  proto : option V
}.
Arguments mk {V} _ _.
Arguments ownProps {V} _.
Arguments proto {V} _.

Definition empty {V : Type} : t V := mk [] None.

(** Writing an own data property: an existing key keeps its position,
    a new key is appended. *)
Fixpoint assign {V : Type} (k : string) (v : V) (l : list (string * V))
  : list (string * V) :=
  match l with
  | [] => [(k, v)]
  | (k', v') :: r =>
      if String.eqb k' k then (k', v) :: r else (k', v') :: assign k v r
  end.

(** [obj[k] = v] where [v] is an object (here always an array).  The
    key [__proto__] is not a data property: it is the accessor that
    [Object.prototype] defines, and its setter replaces the prototype of
    the receiver; no own property is created. *)
Definition set {V : Type} (k : string) (v : V) (o : t V) : t V :=
  if String.eqb k "__proto__"
  then mk (ownProps o) (Some v)
  else mk (assign k v (ownProps o)) (proto o).

Fixpoint lookup {V : Type} (k : string) (l : list (string * V)) : option V :=
  match l with
  | [] => None
  | (k', v) :: r => if String.eqb k' k then Some v else lookup k r
  end.

(** Own-property read, [Object.hasOwn(o, k) ? o[k] : undefined]. *)
Definition getOwn {V : Type} (k : string) (o : t V) : option V :=
  lookup k (ownProps o).

Definition keys {V : Type} (o : t V) : list string := map fst (ownProps o).

(** The finite map an object stands for. *)
Definition toMap {V : Type} (o : t V) : gmap string V := list_to_map (ownProps o).

Definition digitValue (c : ascii) : option N :=
  let n := N_of_ascii c in
  if N.leb 48 n && N.leb n 57 then Some (n - 48)%N else None.

Fixpoint parseDigits (acc : N) (s : string) : option N :=
  match s with
  | EmptyString => Some acc
  | String c r =>
      match digitValue c with
      | Some d => parseDigits (acc * 10 + d)%N r
      | None => None
      end
  end.

(** Array-index keys: canonical decimal numerals below 2^32 - 1. *)
Definition arrayIndex (s : string) : option N :=
  match s with
  | EmptyString => None
  | String c r =>
      if Ascii.eqb c "0"
      then match r with EmptyString => Some 0%N | _ => None end
      else match parseDigits 0 s with
           | Some n => if N.ltb n 4294967295 then Some n else None
           | None => None
           end
  end.

Fixpoint insertByIndex {V : Type} (i : N) (e : string * V)
  (l : list (N * (string * V))) : list (N * (string * V)) :=
  match l with
  | [] => [(i, e)]
  | (j, e') :: r =>
      if N.leb i j then (i, e) :: l else (j, e') :: insertByIndex i e r
  end.

Fixpoint indexed {V : Type} (l : list (string * V)) : list (N * (string * V)) :=
  match l with
  | [] => []
  | e :: r =>
      match arrayIndex (fst e) with
      | Some i => insertByIndex i e (indexed r)
      | None => indexed r
      end
  end.

Fixpoint named {V : Type} (l : list (string * V)) : list (string * V) :=
  match l with
  | [] => []
  | e :: r =>
      match arrayIndex (fst e) with
      | Some _ => named r
      | None => e :: named r
      end
  end.

(** [Object.entries(o)]: array-index keys in ascending numeric order,
    then the other keys in creation order. *)
Definition entries {V : Type} (o : t V) : list (string * V) :=
  map snd (indexed (ownProps o)) ++ named (ownProps o).

End JsObject.


(** ** Thrown values, outcomes and the observable trace *)

(** What a [catch] clause can receive: an [Error] instance with its
    [message], or some other value with the text [String(value)] gives. *)
Inductive JsError : Type :=
| ErrorObject (message : string)
| ThrownValue (rendering : string).

(** [error instanceof Error ? error.message : String(error)] *)
Definition errorMessage (error : JsError) : string :=
  match error with
  | ErrorObject message => message
  | ThrownValue rendering => rendering
  end.

Inductive Outcome (A : Type) : Type :=
| Returned (a : A)
| Threw (error : JsError).
Arguments Returned {A} _.
Arguments Threw {A} _.

(** The four module-level constants of [clickhouse-service.ts]. *)
Record Config : Type := {
  CLICKHOUSE_URL : string;
  CLICKHOUSE_USERNAME : string;
  CLICKHOUSE_PASSWORD : string;
  CLICKHOUSE_DATABASE : string
}.

(** Effects that leave the process, in the order they happen. *)
Inductive Event : Type :=
| EvCreateClient (cfg : Config)                      (* createClient({...}) *)
| EvQuery (query : string) (format : string)         (* client.query({query, format}) *)
| EvConsoleError (label : string) (detail : option JsError)
| EvConnect                                          (* server.connect(transport) *)
| EvOnSigint                                         (* process.on('SIGINT', handler) *)
| EvClose                                            (* client.close() *)
| EvExit (code : Z).                                 (* process.exit(code) *)

Record World (Db : Type) : Type := {
  dbState : Db;
  trace : list Event
}.
Arguments dbState {Db} _.
Arguments trace {Db} _.

Definition M (Db A : Type) : Type := World Db -> Outcome A * World Db.

Definition ret {Db A : Type} (a : A) : M Db A := fun w => (Returned a, w).

Definition throw {Db A : Type} (error : JsError) : M Db A := fun w => (Threw error, w).

Definition bind {Db A B : Type} (c : M Db A) (k : A -> M Db B) : M Db B :=
  fun w =>
    match c w with
    | (Returned a, w') => k a w'
    | (Threw error, w') => (Threw error, w')
    end.

(** [try { body } catch (error) { handler }] *)
Definition tryCatch {Db A : Type} (body : M Db A) (handler : JsError -> M Db A)
  : M Db A :=
  fun w =>
    match body w with
    | (Returned a, w') => (Returned a, w')
    | (Threw error, w') => handler error w'
    end.

Definition record {Db : Type} (e : Event) (w : World Db) : World Db :=
  {| dbState := dbState w; trace := trace w ++ [e] |}.

Definition emit {Db : Type} (e : Event) : M Db unit :=
  fun w => (Returned tt, record e w).

(** The world after [console.error(label, error)]. *)
Definition logged {Db : Type} (label : string) (error : JsError) (w : World Db)
  : World Db :=
  record (EvConsoleError label (Some error)) w.

Definition consoleError {Db : Type} (label : string) (detail : option JsError)
  : M Db unit :=
  emit (EvConsoleError label detail).

(** Lifting a computation that touches nothing, such as [result.json()]
    on a response already received. *)
Definition await {Db A : Type} (o : Outcome A) : M Db A := fun w => (o, w).

#[global] Instance M_ret {Db : Type} : MRet (M Db) := @ret Db.
#[global] Instance M_bind {Db : Type} : MBind (M Db) := fun A B k c => bind c k.

(** ** Rows as the source types them *)

Module TableRow.
Record t : Type := { name : string }.
End TableRow.

Module ColumnInfo.
Record t : Type := { name : string; type : string }.
End ColumnInfo.

(** ** The database client of [@clickhouse/client]

    [Db] is whatever state the server keeps, [ResultSet] the response of
    one query, [Row] a generic result row.  [client_query] is one
    round trip; the three [json_*] functions are [result.json<T>()] at
    the three types the service asks for. *)
Class ClickHouseClient (Db ResultSet Row : Type) : Type := {
  client_query : string -> string -> Db -> Outcome ResultSet * Db;
  json_TableRow : ResultSet -> Outcome (list TableRow.t);
  json_ColumnInfo : ResultSet -> Outcome (list ColumnInfo.t);
  json_Row : ResultSet -> Outcome (list Row)
}.

(** [JSON.stringify(value, null, 2)] at type [A]. *)
Class JSON (A : Type) : Type := JSON_stringify : A -> string.

(** The object [getDatabaseInfo] resolves to. *)
Record DatabaseInfo : Type := {
  database : string;
  tables : list string;
  schemas : JsObject.t (list ColumnInfo.t)
}.

(** ** [class ClickHouseService] *)

Section ClickHouseService.

Context {Db ResultSet Row : Type} `{!ClickHouseClient Db ResultSet Row}.
Variable cfg : Config.

(** [this.client.query({ query, format })] *)
Definition clientQuery (query format : string) : M Db ResultSet :=
  fun w =>
    let w1 := record (EvQuery query format) w in
    let '(r, db') := client_query query format (dbState w1) in
    (r, {| dbState := db'; trace := trace w1 |}).

Definition listTables : M Db (list string) :=
  tryCatch
    (result ← clientQuery ("SHOW TABLES FROM " +:+ CLICKHOUSE_DATABASE cfg) "JSONEachRow";
     data ← await (json_TableRow result);
     mret (map TableRow.name data))
    (fun error =>
       consoleError "Error listing tables:" (Some error);;
       throw error).

Definition getTableSchema (tableName : string) : M Db (list ColumnInfo.t) :=
  tryCatch
    (result ← clientQuery
       ("DESCRIBE TABLE " +:+ CLICKHOUSE_DATABASE cfg +:+ "." +:+ tableName)
       "JSONEachRow";
     data ← await (json_ColumnInfo result);
     mret data)
    (fun error =>
       consoleError ("Error getting schema for table " +:+ tableName +:+ ":")
         (Some error);;
       throw error).

Definition executeQuery (query : string) : M Db (list Row) :=
  tryCatch
    (if isBlocked query
     then throw (ErrorObject "Only read-only queries are allowed")
     else
       result ← clientQuery query "JSONEachRow";
       data ← await (json_Row result);
       mret data)
    (fun error =>
       consoleError "Error executing query:" (Some error);;
       throw error).

(** The [for (const table of tables)] loop of [getDatabaseInfo]. *)
Fixpoint fetchSchemas (tables : list string)
  (tableSchemas : JsObject.t (list ColumnInfo.t))
  : M Db (JsObject.t (list ColumnInfo.t)) :=
  match tables with
  | [] => mret tableSchemas
  | table :: rest =>
      schema ← getTableSchema table;
      fetchSchemas rest (JsObject.set table schema tableSchemas)
  end.

Definition getDatabaseInfo : M Db DatabaseInfo :=
  tryCatch
    (tables ← listTables;
     tableSchemas ← fetchSchemas tables JsObject.empty;
     mret {| database := CLICKHOUSE_DATABASE cfg;
             tables := tables;
             schemas := tableSchemas |})
    (fun error =>
       consoleError "Error getting database info:" (Some error);;
       throw error).

Definition getTableSampleData (tableName : string) : M Db (list Row) :=
  tryCatch
    (result ← clientQuery
       ("SELECT * FROM " +:+ CLICKHOUSE_DATABASE cfg +:+ "." +:+ tableName +:+ " LIMIT 5")
       "JSONEachRow";
     data ← await (json_Row result);
     mret data)
    (fun error =>
       consoleError ("Error getting sample data for table " +:+ tableName +:+ ":")
         (Some error);;
       throw error).

(** [close()]: [closed] is what [this.client.close()] settles to. *)
Definition close (closed : Outcome unit) : M Db unit :=
  emit EvClose;; await closed.

End ClickHouseService.

(** The three statement texts the service builds, by name. *)
Definition showTablesText (cfg : Config) : string :=
  "SHOW TABLES FROM " +:+ CLICKHOUSE_DATABASE cfg.

Definition describeText (cfg : Config) (tableName : string) : string :=
  "DESCRIBE TABLE " +:+ CLICKHOUSE_DATABASE cfg +:+ "." +:+ tableName.

Definition sampleText (cfg : Config) (tableName : string) : string :=
  "SELECT * FROM " +:+ CLICKHOUSE_DATABASE cfg +:+ "." +:+ tableName +:+ " LIMIT 5".

(** ** The protocol adapter of [index.ts] *)

Record URL : Type := { href : string }.

Record ResourceContents : Type := {
  rc_uri : string;
  rc_text : string;
  rc_mimeType : string
}.

Record ReadResourceResult : Type := { contents : list ResourceContents }.

Record Resource : Type := { res_name : string; res_uri : string }.

Record ListResourcesResult : Type := { resources : list Resource }.

Record TextContent : Type := { tc_type : string; tc_text : string }.

(** [isError] is [None] when the key is absent from the response. *)
Record CallToolResult : Type := {
  content : list TextContent;
  isError : option bool
}.

(** A template variable arrives as a string or as an array of strings. *)
Inductive TemplateValue : Type :=
| VString (s : string)
| VArray (l : list string).

(** [Array.isArray(tableName) ? tableName[0] : tableName].  Element 0 of
    an empty array is [undefined], which every later use renders through
    a template literal as the text "undefined". *)
Definition tableNameStr (tableName : TemplateValue) : string :=
  match tableName with
  | VString s => s
  | VArray l => nth 0 l "undefined"
  end.

(** How a template literal renders the variable. *)
Definition renderTemplateValue (tableName : TemplateValue) : string :=
  match tableName with
  | VString s => s
  | VArray l => JsString.join "," l
  end.

Definition columnText (col : ColumnInfo.t) : string :=
  ColumnInfo.name col +:+ " (" +:+ ColumnInfo.type col +:+ ")".

(** The characters that cannot be written inside a literal here. *)
Definition dquote : string := String (ascii_of_N 34) EmptyString.
Definition newline : string := String (ascii_of_N 10) EmptyString.

Definition tableLine (entry : string * list ColumnInfo.t) : string :=
  "Table " +:+ dquote +:+ fst entry +:+ dquote +:+ " has columns: "
  +:+ JsString.join ", " (map columnText (snd entry)).

Definition suggestionText : string :=
  "You can execute specific SQL queries using the " +:+ dquote
  +:+ "execute-sql" +:+ dquote +:+ " tool.".

Section ProtocolAdapter.

Context {Db ResultSet Row : Type} `{!ClickHouseClient Db ResultSet Row}.
Context `{!JSON DatabaseInfo} `{!JSON (list ColumnInfo.t)} `{!JSON (list Row)}.
Variable cfg : Config.

(** Resource [database-info] at [db://info]. *)
Definition databaseInfoRead (uri : URL) : M Db ReadResourceResult :=
  tryCatch
    (dbInfo ← getDatabaseInfo cfg;
     mret {| contents := [ {| rc_uri := href uri;
                              rc_text := JSON_stringify dbInfo;
                              rc_mimeType := "application/json" |} ] |})
    (fun error =>
       consoleError "Error fetching database info:" (Some error);;
       throw error).

(** Resource template [table://{tableName}/schema]: the [list] callback. *)
Definition tableSchemaList : M Db ListResourcesResult :=
  tables ← listTables cfg;
  mret {| resources :=
            map (fun table => {| res_name := "Schema for " +:+ table;
                                 res_uri := "table://" +:+ table +:+ "/schema" |})
                tables |}.

Definition tableSchemaRead (uri : URL) (tableName : TemplateValue)
  : M Db ReadResourceResult :=
  tryCatch
    (schema ← getTableSchema cfg (tableNameStr tableName);
     mret {| contents := [ {| rc_uri := href uri;
                              rc_text := JSON_stringify schema;
                              rc_mimeType := "application/json" |} ] |})
    (fun error =>
       consoleError
         ("Error fetching schema for table " +:+ renderTemplateValue tableName +:+ ":")
         (Some error);;
       throw error).

(** Resource template [table://{tableName}/sample]: the [list] callback. *)
Definition tableSampleList : M Db ListResourcesResult :=
  tables ← listTables cfg;
  mret {| resources :=
            map (fun table => {| res_name := "Sample data for " +:+ table;
                                 res_uri := "table://" +:+ table +:+ "/sample" |})
                tables |}.

Definition tableSampleRead (uri : URL) (tableName : TemplateValue)
  : M Db ReadResourceResult :=
  tryCatch
    (sampleData ← getTableSampleData (Row := Row) cfg (tableNameStr tableName);
     mret {| contents := [ {| rc_uri := href uri;
                              rc_text := JSON_stringify sampleData;
                              rc_mimeType := "application/json" |} ] |})
    (fun error =>
       consoleError
         ("Error fetching sample data for table " +:+ renderTemplateValue tableName +:+ ":")
         (Some error);;
       throw error).

(** The in-band failure response both tools build in their [catch]. *)
Definition errorResult (error : JsError) : CallToolResult :=
  {| content := [ {| tc_type := "text";
                     tc_text := "Error: " +:+ errorMessage error |} ];
     isError := Some true |}.

(** Tool [execute-sql]. *)
Definition executeSql (query : string) : M Db CallToolResult :=
  tryCatch
    (results ← executeQuery (Row := Row) query;
     let formattedResults := JSON_stringify results in
     mret {| content := [ {| tc_type := "text"; tc_text := formattedResults |} ];
             isError := None |})
    (fun error =>
       consoleError "Error executing SQL query:" (Some error);;
       mret (errorResult error)).

(** The text of the success response of [natural-language-query]. *)
Definition answerText (question schemaInfo : string) : string :=
  "Based on your question: " +:+ dquote +:+ question +:+ dquote
  +:+ ", here is the database schema to reference:" +:+ newline +:+ newline
  +:+ schemaInfo +:+ newline +:+ newline
  +:+ "To answer this question, you could use a SQL query like: "
  +:+ newline +:+ newline
  +:+ "SELECT * FROM ... WHERE ... LIMIT 10;" +:+ newline +:+ newline
  +:+ suggestionText.

(** Tool [natural-language-query]. *)
Definition naturalLanguageQuery (question : string) : M Db CallToolResult :=
  tryCatch
    (dbInfo ← getDatabaseInfo cfg;
     let schemaInfo :=
       JsString.join (newline +:+ newline)
         (map tableLine (JsObject.entries (schemas dbInfo))) in
     mret {| content := [ {| tc_type := "text";
                             tc_text := answerText question schemaInfo |} ];
             isError := None |})
    (fun error =>
       consoleError "Error processing natural language query:" (Some error);;
       mret (errorResult error)).

End ProtocolAdapter.

(** ** Process start-up *)

(** [!value] on [process.env.X]: an unset variable is [undefined], and
    the empty string is falsy as well. *)
Definition falsy (value : option string) : bool :=
  match value with
  | None => true
  | Some s => String.eqb s EmptyString
  end.

(** Evaluation of the module [clickhouse-service.ts], lines 4-13. *)
Definition loadConfig (env : gmap string string) : Outcome Config :=
  let url := env !! "CLICKHOUSE_URL" in
  let username := env !! "CLICKHOUSE_USERNAME" in
  let password := env !! "CLICKHOUSE_PASSWORD" in
  let db := env !! "CLICKHOUSE_DATABASE" in
  if falsy url || falsy username || falsy password || falsy db
  then Threw (ErrorObject "Missing required ClickHouse environment variables")
  else Returned {| CLICKHOUSE_URL := default EmptyString url;
                   CLICKHOUSE_USERNAME := default EmptyString username;
                   CLICKHOUSE_PASSWORD := default EmptyString password;
                   CLICKHOUSE_DATABASE := default EmptyString db |}.

Inductive ProcessStatus : Type :=
| Serving                      (* connected, waiting for requests *)
| Exited (code : Z)            (* process.exit(code) *)
| Crashed (error : JsError).   (* uncaught exception or unhandled rejection *)

(** Evaluation of [index.ts] until [startServer()] has settled: its
    import of the service module runs first; then
    [new ClickHouseService()], whose [createClient] call settles to
    [created]; then [startServer()], in which [server.connect(transport)]
    settles to [connect] and, in the [catch], [clickhouseService.close()]
    settles to [closed].  An error thrown while the modules are
    evaluated, or a rejection inside the [catch], is caught by nobody and
    ends the process. *)
Definition main (env : gmap string string) (created connect closed : Outcome unit)
  : list Event * ProcessStatus :=
  match loadConfig env with
  | Threw error => ([], Crashed error)
  | Returned cfg =>
      match created with
      | Threw error => ([ EvCreateClient cfg ], Crashed error)
      | Returned _ =>
          let started :=
            [ EvCreateClient cfg;
              EvConsoleError "Starting ClickHouse MCP Server..." None;
              EvConnect ] in
          match connect with
          | Returned _ =>
              (started ++ [ EvConsoleError "ClickHouse MCP Server running on stdio" None;
                            EvOnSigint ],
               Serving)
          | Threw error =>
              let failed :=
                started ++ [ EvConsoleError "Error starting server:" (Some error);
                             EvClose ] in
              match closed with
              | Returned _ => (failed ++ [ EvExit 1 ], Exited 1)
              | Threw closeError => (failed, Crashed closeError)
              end
          end
      end
  end.



Definition isCreateClient (e : Event) : bool :=
  match e with EvCreateClient _ => true | _ => false end.

Definition isConnect (e : Event) : bool :=
  match e with EvConnect => true | _ => false end.

Definition isQuery (e : Event) : bool :=
  match e with EvQuery _ _ => true | _ => false end.

(** The queries of a trace, in order. *)
Definition queriesOf (l : list Event) : list string :=
  omap (fun e => match e with EvQuery q _ => Some q | _ => None end) l.

(** ** Test doubles for the database

    Two stand-ins for a ClickHouse server, used to run the service on
    concrete inputs.  The general theorems hold for every client. *)

Module Double.

Definition SampleRow : Type := list (string * string).

Inductive Answer : Type :=
| Names (l : list TableRow.t)
| Columns (l : list ColumnInfo.t)
| Rows (l : list SampleRow).

Definition shapeError : JsError := ErrorObject "Unexpected response shape".

Definition asNames (a : Answer) : Outcome (list TableRow.t) :=
  match a with Names l => Returned l | _ => Threw shapeError end.

Definition asColumns (a : Answer) : Outcome (list ColumnInfo.t) :=
  match a with Columns l => Returned l | _ => Threw shapeError end.

Definition asRows (a : Answer) : Outcome (list SampleRow) :=
  match a with Rows l => Returned l | _ => Threw shapeError end.

(** *** A scripted client: the state is the list of responses still to
    be given, one per query, whatever the query says. *)
Definition Script : Type := list (Outcome Answer).

Definition scriptedQuery (query format : string) (s : Script)
  : Outcome Answer * Script :=
  match s with
  | a :: rest => (a, rest)
  | [] => (Threw (ErrorObject "socket hang up"), [])
  end.

Definition scripted : ClickHouseClient Script Answer SampleRow :=
  {| client_query := scriptedQuery;
     json_TableRow := asNames;
     json_ColumnInfo := asColumns;
     json_Row := asRows |}.

(** *** A small engine: one database named [analytics], a fixed set of
    tables, and the three statement forms the service emits.  As in
    ClickHouse, [--] starts a comment that runs to the end of the line. *)
Record StoredTable : Type := {
  st_name : string;
  st_columns : list ColumnInfo.t;
  st_rows : list SampleRow
}.

Definition Store : Type := list StoredTable.

Fixpoint stripPrefix (p s : string) : option string :=
  match p, s with
  | EmptyString, _ => Some s
  | String a p', String b s' => if Ascii.eqb a b then stripPrefix p' s' else None
  | String _ _, EmptyString => None
  end.

Fixpoint splitAt (sep s : string) : option (string * string) :=
  match stripPrefix sep s with
  | Some rest => Some (EmptyString, rest)
  | None =>
      match s with
      | EmptyString => None
      | String c r =>
          match splitAt sep r with
          | Some (a, b) => Some (String c a, b)
          | None => None
          end
      end
  end.

Definition stripComment (q : string) : string :=
  match splitAt "--" q with
  | Some (before, _) => before
  | None => q
  end.

Fixpoint findTable (name : string) (s : Store) : option StoredTable :=
  match s with
  | [] => None
  | t :: rest => if String.eqb (st_name t) name then Some t else findTable name rest
  end.

Definition unknownTable (name : string) : JsError :=
  ErrorObject ("Table analytics." +:+ name +:+ " does not exist").

Definition syntaxError : JsError := ErrorObject "Syntax error".

Definition evalQuery (q : string) (s : Store) : Outcome Answer :=
  let text := JsString.trim (stripComment q) in
  if String.eqb text "SHOW TABLES FROM analytics"
  then Returned (Names (map (fun t => {| TableRow.name := st_name t |}) s))
  else
    match stripPrefix "DESCRIBE TABLE analytics." text with
    | Some name =>
        match findTable name s with
        | Some t => Returned (Columns (st_columns t))
        | None => Threw (unknownTable name)
        end
    | None =>
        match stripPrefix "SELECT * FROM analytics." text with
        | Some rest =>
            match splitAt " LIMIT " rest with
            | Some (name, count) =>
                match JsObject.parseDigits 0 count, findTable name s with
                | Some n, Some t => Returned (Rows (take (N.to_nat n) (st_rows t)))
                | Some _, None => Threw (unknownTable name)
                | None, _ => Threw syntaxError
                end
            | None =>
                match findTable rest s with
                | Some t => Returned (Rows (st_rows t))
                | None => Threw (unknownTable rest)
                end
            end
        | None => Threw syntaxError
        end
    end.

Definition engine : ClickHouseClient Store Answer SampleRow :=
  {| client_query := fun query format s => (evalQuery query s, s);
     json_TableRow := asNames;
     json_ColumnInfo := asColumns;
     json_Row := asRows |}.

(** Stand-in serialisers for concrete runs: the layout of
    [JSON.stringify] without indentation, for strings that need no
    escaping. *)
Definition quoted (s : string) : string := dquote +:+ s +:+ dquote.

Definition jsonObject (fields : list (string * string)) : string :=
  "{" +:+ JsString.join "," (map (fun kv => quoted (fst kv) +:+ ":" +:+ snd kv) fields)
  +:+ "}".

Definition jsonArray (items : list string) : string :=
  "[" +:+ JsString.join "," items +:+ "]".

Definition jsonRows : JSON (list SampleRow) :=
  fun rows =>
    jsonArray (map (fun row => jsonObject (map (fun kv => (fst kv, quoted (snd kv))) row)) rows).

Definition jsonColumn (c : ColumnInfo.t) : string :=
  jsonObject [ ("name", quoted (ColumnInfo.name c)); ("type", quoted (ColumnInfo.type c)) ].

Definition jsonColumns : JSON (list ColumnInfo.t) :=
  fun cols => jsonArray (map jsonColumn cols).

Definition jsonInfo : JSON DatabaseInfo :=
  fun info =>
    jsonObject
      [ ("database", quoted (database info));
        ("tables", jsonArray (map quoted (tables info)));
        ("schemas",
         jsonObject (map (fun e => (fst e, jsonColumns (snd e)))
                         (JsObject.entries (schemas info)))) ].

Definition analyticsCfg : Config :=
  {| CLICKHOUSE_URL := "http://localhost:8123";
     CLICKHOUSE_USERNAME := "reader";
     CLICKHOUSE_PASSWORD := "secret";
     CLICKHOUSE_DATABASE := "analytics" |}.

Definition col (n t : string) : ColumnInfo.t :=
  {| ColumnInfo.name := n; ColumnInfo.type := t |}.

Definition eventRow (id : string) : SampleRow :=
  [ ("id", id); ("ts", "2024-01-01 00:00:00") ].

(** The database of the specification's scenarios, with six events. *)
Definition analytics : Store :=
  [ {| st_name := "events";
       st_columns := [ col "id" "UInt64"; col "ts" "DateTime" ];
       st_rows := map eventRow [ "1"; "2"; "3"; "4"; "5"; "6" ] |};
    {| st_name := "users";
       st_columns := [ col "id" "UInt64"; col "name" "String" ];
       st_rows := [ [ ("id", "1"); ("name", "ada") ] ] |} ].

(** The same database after [CREATE TABLE __proto__ (id UInt64) ...]. *)
Definition analyticsWithProto : Store :=
  analytics ++ [ {| st_name := "__proto__";
                    st_columns := [ col "id" "UInt64" ];
                    st_rows := [] |} ].

Definition start {Db : Type} (db : Db) : World Db := {| dbState := db; trace := [] |}.

(** The snapshot of the specification's scenario. *)
Definition analyticsInfo : DatabaseInfo :=
  {| database := "analytics";
     tables := [ "events"; "users" ];
     schemas :=
       JsObject.mk
         [ ("events", [ col "id" "UInt64"; col "ts" "DateTime" ]);
           ("users", [ col "id" "UInt64"; col "name" "String" ]) ]
         None |}.

(** An environment with the four variables set, and the same without
    the password. *)
Definition fullEnv : gmap string string :=
  <[ "CLICKHOUSE_URL" := "http://localhost:8123" ]>
    (<[ "CLICKHOUSE_USERNAME" := "reader" ]>
       (<[ "CLICKHOUSE_PASSWORD" := "secret" ]>
          (<[ "CLICKHOUSE_DATABASE" := "analytics" ]> ∅))).

Definition envWithoutPassword : gmap string string :=
  delete "CLICKHOUSE_PASSWORD" fullEnv.

(** A server on which [users] is dropped after the tables were listed:
    the list answers, [events] is described, [users] is gone. *)
Definition usersDropped : Script :=
  [ Returned (Names [ {| TableRow.name := "events" |}; {| TableRow.name := "users" |} ]);
    Returned (Columns [ col "id" "UInt64"; col "ts" "DateTime" ]);
    Threw (unknownTable "users") ].

(** A server that refuses every connection. *)
Definition unreachable : Script := [].

End Double.

(** * Properties *)

(** ** Strings *)

Lemma append_cons (c : ascii) (a b : string) :
  String c a +:+ b = String c (a +:+ b).
Proof. reflexivity. Qed.

Lemma append_empty_l (a : string) : EmptyString +:+ a = a.
Proof. reflexivity. Qed.

Lemma append_assoc (a b c : string) : (a +:+ b) +:+ c = a +:+ b +:+ c.
Proof.
  induction a as [|x a IH]; [reflexivity|].
  now rewrite !append_cons, IH.
Qed.

Lemma append_empty_r (a : string) : a +:+ EmptyString = a.
Proof.
  induction a as [|x a IH]; [reflexivity|].
  now rewrite append_cons, IH.
Qed.

Lemma prefix_spec (p s : string) :
  String.prefix p s = true <-> exists b, s = p +:+ b.
Proof.
  revert s. induction p as [|x p IH]; intros s.
  - split; [intros _; exists s; reflexivity | intros _; now destruct s].
  - destruct s as [|y s]; simpl.
    + split; [discriminate | intros [b Hb]; discriminate].
    + destruct (ascii_dec x y) as [->|Hne].
      * rewrite IH. split; intros [b Hb]; exists b.
        -- now rewrite append_cons, Hb.
        -- rewrite append_cons in Hb. congruence.
      * split; [discriminate | intros [b Hb]].
        rewrite append_cons in Hb. congruence.
Qed.

Lemma includes_unfold (s needle : string) :
  JsString.includes s needle
  = String.prefix needle s
    || match s with
       | EmptyString => false
       | String _ r => JsString.includes r needle
       end.
Proof. destruct s; reflexivity. Qed.

Lemma includes_spec (s needle : string) :
  JsString.includes s needle = true <-> JsString.Substring needle s.
Proof.
  split.
  - induction s as [|c s IH]; rewrite includes_unfold, orb_true_iff.
    + intros [Hp | Hf]; [|discriminate].
      apply prefix_spec in Hp as [b Hb]. exists EmptyString, b. exact Hb.
    + intros [Hp | Hr].
      * apply prefix_spec in Hp as [b Hb]. exists EmptyString, b. exact Hb.
      * destruct (IH Hr) as (a & b & Hab).
        exists (String c a), b. now rewrite append_cons, Hab.
  - intros (a & b & Hab). revert s Hab.
    induction a as [|c a IH]; intros s Hab.
    + rewrite includes_unfold.
      assert (Hp : String.prefix needle s = true)
        by (apply prefix_spec; exists b; exact Hab).
      now rewrite Hp.
    + subst s. rewrite append_cons, includes_unfold.
      rewrite (IH _ eq_refl). apply orb_true_r.
Qed.

Lemma includes_false_spec (s needle : string) :
  JsString.includes s needle = false <-> ~ JsString.Substring needle s.
Proof.
  rewrite <- includes_spec. destruct (JsString.includes s needle); split; intros; congruence.
Qed.

Lemma Substring_append_l (needle a s : string) :
  JsString.Substring needle s -> JsString.Substring needle (a +:+ s).
Proof.
  intros (x & y & ->). exists (a +:+ x), y. now rewrite append_assoc.
Qed.

Lemma Substring_append_r (needle s b : string) :
  JsString.Substring needle s -> JsString.Substring needle (s +:+ b).
Proof.
  intros (x & y & ->). exists x, (y +:+ b).
  rewrite append_assoc. f_equal. apply append_assoc.
Qed.

Lemma Substring_refl (s : string) : JsString.Substring s s.
Proof. exists EmptyString, EmptyString. now rewrite append_empty_l, append_empty_r. Qed.

(** ** The query guard *)

Example isBlocked_drop : isBlocked "DROP TABLE events" = true.
Proof. reflexivity. Qed.

Example isBlocked_select : isBlocked "SELECT id FROM events LIMIT 1" = false.
Proof. reflexivity. Qed.

Example isBlocked_literal : isBlocked "  SELECT 'Update' AS status " = true.
Proof. reflexivity. Qed.

(** The guard is the disjunction over the six keywords. *)
Lemma isBlocked_existsb (query : string) :
  isBlocked query = existsb (JsString.includes (normalizedQuery query)) blockedKeywords.
Proof. unfold isBlocked, blockedKeywords. simpl. now rewrite orb_false_r, !orb_assoc. Qed.

Lemma isBlocked_true (query : string) :
  isBlocked query = true <->
  exists kw, kw ∈ blockedKeywords /\ JsString.Substring kw (normalizedQuery query).
Proof.
  rewrite isBlocked_existsb, existsb_exists. split.
  - intros (kw & Hin & Hinc). exists kw. split.
    + now apply list_elem_of_In.
    + now apply includes_spec.
  - intros (kw & Hin & Hsub). exists kw. split.
    + now apply list_elem_of_In.
    + now apply includes_spec.
Qed.

Lemma isBlocked_false (query : string) :
  isBlocked query = false <->
  forall kw, kw ∈ blockedKeywords -> ~ JsString.Substring kw (normalizedQuery query).
Proof.
  split.
  - intros Hb kw Hin Hsub.
    assert (isBlocked query = true) by (apply isBlocked_true; eauto).
    congruence.
  - intros Hall. destruct (isBlocked query) eqn:Hb; [|reflexivity].
    apply isBlocked_true in Hb as (kw & Hin & Hsub). now destruct (Hall kw Hin).
Qed.

(** ** Effects *)

Create HintDb js_effects.

#[global] Hint Unfold mbind mret M_bind M_ret bind ret throw tryCatch await
  consoleError emit clientQuery record logged : js_effects.

(** Unfold the monad and split on every database answer in sight. *)
Ltac run_effects :=
  autounfold with js_effects in *; simpl in *;
  repeat match goal with
         | |- context [client_query ?q ?f ?d] =>
             let r := fresh "answer" in
             let d' := fresh "db'" in
             let E := fresh "Hquery" in
             destruct (client_query q f d) as [r d'] eqn:E; simpl in *
         | |- context [match ?o with Returned _ => _ | Threw _ => _ end] =>
             let E := fresh "Hout" in
             destruct o eqn:E; simpl in *
         end.

Lemma queriesOf_app (a b : list Event) : queriesOf (a ++ b) = queriesOf a ++ queriesOf b.
Proof. unfold queriesOf. apply omap_app. Qed.

Lemma errorResult_flagged (error : JsError) :
  isError (errorResult error) = Some true
  /\ exists text, content (errorResult error) = [ {| tc_type := "text"; tc_text := text |} ]
                  /\ String.prefix "Error:" text = true.
Proof.
  split; [reflexivity|]. eexists. split; [reflexivity|].
  apply prefix_spec. exists (" " +:+ errorMessage error). reflexivity.
Qed.

Section ServiceProperties.

Context {Db ResultSet Row : Type} `{!ClickHouseClient Db ResultSet Row}.
Context `{!JSON DatabaseInfo} `{!JSON (list ColumnInfo.t)} `{!JSON (list Row)}.
Variable cfg : Config.

(** *** The read-only guard on the [execute-sql] path *)

Lemma executeQuery_blocked (query : string) (w : World Db) :
  isBlocked query = true ->
  executeQuery (Row := Row) query w
  = (Threw (ErrorObject "Only read-only queries are allowed"),
     {| dbState := dbState w;
        trace := trace w ++ [ EvConsoleError "Error executing query:"
                                (Some (ErrorObject "Only read-only queries are allowed")) ] |}).
Proof. intros Hb. unfold executeQuery. run_effects. now rewrite Hb. Qed.

Lemma executeQuery_allowed (query : string) (w : World Db) :
  isBlocked query = false ->
  executeQuery (Row := Row) query w
  = let '(answer, db') := client_query query "JSONEachRow" (dbState w) in
    let sent := trace w ++ [ EvQuery query "JSONEachRow" ] in
    match answer with
    | Returned result =>
        match json_Row result with
        | Returned data => (Returned data, {| dbState := db'; trace := sent |})
        | Threw error =>
            (Threw error,
             {| dbState := db';
                trace := sent ++ [ EvConsoleError "Error executing query:" (Some error) ] |})
        end
    | Threw error =>
        (Threw error,
         {| dbState := db';
            trace := sent ++ [ EvConsoleError "Error executing query:" (Some error) ] |})
    end.
Proof. intros Hb. unfold executeQuery. rewrite Hb. run_effects; reflexivity. Qed.

(** C1. A query whose trimmed, lower-cased text contains one of
    [insert], [update], [delete], [drop], [alter], [create] anywhere
    makes [execute-sql] return the error-flagged response with text
    "Error: Only read-only queries are allowed"; the only effects are two
    console messages, no query reaches the client and the database state
    is untouched. *)
Theorem executeSql_rejects_blocked (query : string) (w : World Db) :
  (exists kw, kw ∈ blockedKeywords /\ JsString.Substring kw (normalizedQuery query)) ->
  exists r w',
    executeSql query w = (Returned r, w')
    /\ r = {| content := [ {| tc_type := "text";
                              tc_text := "Error: Only read-only queries are allowed" |} ];
              isError := Some true |}
    /\ Forall (fun c => String.prefix "Error:" (tc_text c) = true) (content r)
    /\ trace w'
       = trace w ++ [ EvConsoleError "Error executing query:"
                        (Some (ErrorObject "Only read-only queries are allowed"));
                      EvConsoleError "Error executing SQL query:"
                        (Some (ErrorObject "Only read-only queries are allowed")) ]
    /\ queriesOf (trace w') = queriesOf (trace w)
    /\ dbState w' = dbState w.
Proof.
  intros Hkw. apply isBlocked_true in Hkw.
  eexists _, _. split.
  - unfold executeSql, tryCatch, mbind, M_bind, bind.
    rewrite (executeQuery_blocked query w Hkw). reflexivity.
  - simpl. split; [reflexivity|]. split; [repeat constructor|].
    split; [now rewrite <- app_assoc|]. split; [|reflexivity].
    rewrite !queriesOf_app. simpl. now rewrite !app_nil_r.
Qed.

(** C2. A query whose trimmed, lower-cased text contains none of the
    six keywords is handed to the client exactly as received: the first
    effect of [executeQuery] is the query event carrying the original
    string, the database moves as that very query dictates, and nothing
    but console output can follow. *)
Theorem executeQuery_forwards_unmodified (query : string) (w : World Db) :
  (forall kw, kw ∈ blockedKeywords -> ~ JsString.Substring kw (normalizedQuery query)) ->
  exists logs,
    trace (snd (executeQuery (Row := Row) query w))
    = trace w ++ EvQuery query "JSONEachRow" :: logs
    /\ queriesOf logs = []
    /\ dbState (snd (executeQuery (Row := Row) query w))
       = snd (client_query query "JSONEachRow" (dbState w))
    /\ fst (executeQuery (Row := Row) query w)
       = match fst (client_query query "JSONEachRow" (dbState w)) with
         | Returned result => json_Row result
         | Threw error => Threw error
         end.
Proof.
  intros Hkw. apply isBlocked_false in Hkw.
  rewrite (executeQuery_allowed query w Hkw).
  destruct (client_query query "JSONEachRow" (dbState w)) as [[result|error] db']; simpl.
  - destruct (json_Row result) as [data|error]; simpl.
    + exists []. repeat split; reflexivity.
    + exists [ EvConsoleError "Error executing query:" (Some error) ].
      repeat split; try reflexivity. now rewrite <- app_assoc.
  - exists [ EvConsoleError "Error executing query:" (Some error) ].
    repeat split; try reflexivity. now rewrite <- app_assoc.
Qed.


(** *** Single round trips *)

Lemma listTables_run (w : World Db) :
  listTables cfg w
  = let query := "SHOW TABLES FROM " +:+ CLICKHOUSE_DATABASE cfg in
    let '(answer, db') := client_query query "JSONEachRow" (dbState w) in
    let w1 := {| dbState := db'; trace := trace w ++ [ EvQuery query "JSONEachRow" ] |} in
    match answer with
    | Returned result =>
        match json_TableRow result with
        | Returned data => (Returned (map TableRow.name data), w1)
        | Threw error => (Threw error, logged "Error listing tables:" error w1)
        end
    | Threw error => (Threw error, logged "Error listing tables:" error w1)
    end.
Proof. unfold listTables. run_effects; reflexivity. Qed.

Lemma getTableSchema_run (tableName : string) (w : World Db) :
  getTableSchema cfg tableName w
  = let query := "DESCRIBE TABLE " +:+ CLICKHOUSE_DATABASE cfg +:+ "." +:+ tableName in
    let label := "Error getting schema for table " +:+ tableName +:+ ":" in
    let '(answer, db') := client_query query "JSONEachRow" (dbState w) in
    let w1 := {| dbState := db'; trace := trace w ++ [ EvQuery query "JSONEachRow" ] |} in
    match answer with
    | Returned result =>
        match json_ColumnInfo result with
        | Returned data => (Returned data, w1)
        | Threw error => (Threw error, logged label error w1)
        end
    | Threw error => (Threw error, logged label error w1)
    end.
Proof. unfold getTableSchema. run_effects; reflexivity. Qed.

Lemma getTableSampleData_run (tableName : string) (w : World Db) :
  getTableSampleData (Row := Row) cfg tableName w
  = let query :=
      "SELECT * FROM " +:+ CLICKHOUSE_DATABASE cfg +:+ "." +:+ tableName +:+ " LIMIT 5" in
    let label := "Error getting sample data for table " +:+ tableName +:+ ":" in
    let '(answer, db') := client_query query "JSONEachRow" (dbState w) in
    let w1 := {| dbState := db'; trace := trace w ++ [ EvQuery query "JSONEachRow" ] |} in
    match answer with
    | Returned result =>
        match json_Row result with
        | Returned data => (Returned data, w1)
        | Threw error => (Threw error, logged label error w1)
        end
    | Threw error => (Threw error, logged label error w1)
    end.
Proof. unfold getTableSampleData. run_effects; reflexivity. Qed.

(** *** The schema loop *)

Lemma fetchSchemas_cons (table : string) (rest : list string)
  (o : JsObject.t (list ColumnInfo.t)) (w : World Db) :
  fetchSchemas cfg (table :: rest) o w
  = match getTableSchema cfg table w with
    | (Returned schema, w1) => fetchSchemas cfg rest (JsObject.set table schema o) w1
    | (Threw error, w1) => (Threw error, w1)
    end.
Proof. reflexivity. Qed.

Lemma fetchSchemas_app (pre post : list string)
  (o : JsObject.t (list ColumnInfo.t)) (w : World Db) :
  fetchSchemas cfg (pre ++ post) o w
  = match fetchSchemas cfg pre o w with
    | (Returned o1, w1) => fetchSchemas cfg post o1 w1
    | (Threw error, w1) => (Threw error, w1)
    end.
Proof.
  revert o w. induction pre as [|t pre IH]; intros o w; [reflexivity|].
  rewrite <- app_comm_cons, !fetchSchemas_cons.
  destruct (getTableSchema cfg t w) as [[schema|error] w1]; [apply IH | reflexivity].
Qed.

Lemma getDatabaseInfo_run (w : World Db) :
  getDatabaseInfo cfg w
  = match listTables cfg w with
    | (Returned tables, w1) =>
        match fetchSchemas cfg tables JsObject.empty w1 with
        | (Returned tableSchemas, w2) =>
            (Returned {| database := CLICKHOUSE_DATABASE cfg;
                         tables := tables;
                         schemas := tableSchemas |}, w2)
        | (Threw error, w2) =>
            (Threw error, logged "Error getting database info:" error w2)
        end
    | (Threw error, w1) => (Threw error, logged "Error getting database info:" error w1)
    end.
Proof.
  unfold getDatabaseInfo, tryCatch, mbind, M_bind, bind.
  destruct (listTables cfg w) as [[tables|error] w1]; [|reflexivity].
  destruct (fetchSchemas cfg tables JsObject.empty w1) as [[o|error] w2]; reflexivity.
Qed.

Lemma getDatabaseInfo_returned (w w' : World Db) (info : DatabaseInfo) :
  getDatabaseInfo cfg w = (Returned info, w') ->
  database info = CLICKHOUSE_DATABASE cfg
  /\ exists w1, listTables cfg w = (Returned (tables info), w1)
                /\ fetchSchemas cfg (tables info) JsObject.empty w1
                   = (Returned (schemas info), w').
Proof.
  rewrite getDatabaseInfo_run.
  destruct (listTables cfg w) as [[tables|error] w1]; [|discriminate].
  destruct (fetchSchemas cfg tables JsObject.empty w1) as [[o|error] w2] eqn:Hf;
    [|discriminate].
  intros [= <- <-]. simpl. split; [reflexivity|]. exists w1. now rewrite Hf.
Qed.

(** C6. When the schema fetch of some listed table fails in the loop
    (every earlier table having been fetched), [getDatabaseInfo] ends
    by throwing that very error; it resolves to no snapshot at all. *)
Theorem getDatabaseInfo_aborts_on_schema_failure
  (w w1 wk : World Db) (tables pre post : list string) (table : string)
  (fetched : JsObject.t (list ColumnInfo.t)) (error : JsError) :
  listTables cfg w = (Returned tables, w1) ->
  tables = pre ++ table :: post ->
  fetchSchemas cfg pre JsObject.empty w1 = (Returned fetched, wk) ->
  fst (getTableSchema cfg table wk) = Threw error ->
  fst (getDatabaseInfo cfg w) = Threw error
  /\ forall info, fst (getDatabaseInfo cfg w) <> Returned info.
Proof.
  intros Hlist -> Hpre Hfail.
  assert (Hthrow : fst (getDatabaseInfo cfg w) = Threw error).
  { rewrite getDatabaseInfo_run, Hlist, fetchSchemas_app, Hpre, fetchSchemas_cons.
    destruct (getTableSchema cfg table wk) as [[schema|e] w2]; simpl in Hfail;
      [discriminate|].
    now injection Hfail as ->. }
  split; [exact Hthrow|]. intros info. rewrite Hthrow. discriminate.
Qed.

End ServiceProperties.

(** ** Objects as maps *)

Example entries_order :
  JsObject.entries
    (JsObject.set "7" 4 (JsObject.set "b" 3 (JsObject.set "10" 2
       (JsObject.set "a" 1 JsObject.empty))))
  = [("7", 4); ("10", 2); ("a", 1); ("b", 3)].
Proof. reflexivity. Qed.

Example set_proto_key :
  JsObject.entries (JsObject.set "__proto__" 1 (JsObject.set "a" 0 JsObject.empty))
  = [("a", 0)].
Proof. reflexivity. Qed.

Lemma lookup_assign_eq {V : Type} (k : string) (v : V) (l : list (string * V)) :
  JsObject.lookup k (JsObject.assign k v l) = Some v.
Proof.
  induction l as [|[k' v'] l IH]; simpl.
  - now rewrite String.eqb_refl.
  - destruct (String.eqb_spec k' k) as [->|Hne]; simpl.
    + now rewrite String.eqb_refl.
    + destruct (String.eqb_spec k' k); [contradiction | exact IH].
Qed.

Lemma lookup_assign_ne {V : Type} (k k' : string) (v : V) (l : list (string * V)) :
  k <> k' -> JsObject.lookup k' (JsObject.assign k v l) = JsObject.lookup k' l.
Proof.
  intros Hne. induction l as [|[k1 v1] l IH]; simpl.
  - destruct (String.eqb_spec k k'); [contradiction | reflexivity].
  - destruct (String.eqb_spec k1 k) as [->|Hk]; simpl.
    + destruct (String.eqb_spec k k'); [contradiction | reflexivity].
    + destruct (String.eqb_spec k1 k'); [reflexivity | exact IH].
Qed.

Lemma keys_assign {V : Type} (k : string) (v : V) (l : list (string * V)) (k' : string) :
  k' ∈ map fst (JsObject.assign k v l) <-> k' = k \/ k' ∈ map fst l.
Proof.
  induction l as [|[k1 v1] l IH]; simpl.
  - rewrite list_elem_of_singleton. split; [auto | intros [?|H]; [done | inversion H]].
  - destruct (String.eqb_spec k1 k) as [->|Hk]; simpl.
    + rewrite !elem_of_cons. tauto.
    + rewrite !elem_of_cons, IH. tauto.
Qed.

Lemma NoDup_assign {V : Type} (k : string) (v : V) (l : list (string * V)) :
  NoDup (map fst l) -> NoDup (map fst (JsObject.assign k v l)).
Proof.
  induction l as [|[k1 v1] l IH]; simpl; intros Hnd.
  - apply NoDup_singleton.
  - apply NoDup_cons in Hnd as [Hnotin Hnd].
    destruct (String.eqb_spec k1 k) as [->|Hk]; simpl.
    + now apply NoDup_cons.
    + apply NoDup_cons. split; [|now apply IH].
      rewrite keys_assign. intros [?|?]; [congruence | contradiction].
Qed.

Lemma lookup_is_Some {V : Type} (k : string) (l : list (string * V)) :
  k ∈ map fst l <-> is_Some (JsObject.lookup k l).
Proof.
  induction l as [|[k1 v1] l IH]; simpl.
  - split; [intros H; inversion H | intros [? ?]; discriminate].
  - rewrite elem_of_cons, IH.
    destruct (String.eqb_spec k1 k) as [->|Hk].
    + split; [eauto | auto].
    + split; [intros [?|?]; [congruence | done] | auto].
Qed.

Lemma lookup_elem_of {V : Type} (k : string) (v : V) (l : list (string * V)) :
  JsObject.lookup k l = Some v -> (k, v) ∈ l.
Proof.
  induction l as [|[k1 v1] l IH]; simpl; [discriminate|].
  rewrite elem_of_cons. destruct (String.eqb_spec k1 k) as [->|Hk].
  - intros [= ->]. now left.
  - intros H. right. now apply IH.
Qed.

Lemma elem_of_map_fst {V : Type} (k : string) (v : V) (l : list (string * V)) :
  (k, v) ∈ l -> k ∈ map fst l.
Proof.
  induction l as [|[k1 v1] l IH]; simpl.
  - now rewrite !elem_of_nil.
  - rewrite !elem_of_cons. intros [[= -> ->]|Hin]; [now left | right; auto].
Qed.

Lemma elem_of_lookup {V : Type} (k : string) (v : V) (l : list (string * V)) :
  NoDup (map fst l) -> (k, v) ∈ l -> JsObject.lookup k l = Some v.
Proof.
  induction l as [|[k1 v1] l IH]; simpl; intros Hnd Hin; [inversion Hin|].
  apply NoDup_cons in Hnd as [Hnotin Hnd].
  apply elem_of_cons in Hin as [[= <- <-]|Hin].
  - now rewrite String.eqb_refl.
  - destruct (String.eqb_spec k1 k) as [->|Hk]; [|now apply IH].
    destruct Hnotin. now apply elem_of_map_fst with v.
Qed.

Lemma insertByIndex_perm {V : Type} (i : N) (e : string * V)
  (l : list (N * (string * V))) :
  Permutation (map snd (JsObject.insertByIndex i e l)) (e :: map snd l).
Proof.
  induction l as [|[j e'] l IH]; simpl; [reflexivity|].
  destruct (N.leb i j); simpl; [reflexivity|].
  rewrite IH. apply perm_swap.
Qed.

(** [Object.entries] lists every own property exactly once. *)
Lemma entries_perm {V : Type} (o : JsObject.t V) :
  Permutation (JsObject.entries o) (JsObject.ownProps o).
Proof.
  unfold JsObject.entries. induction (JsObject.ownProps o) as [|e l IH]; simpl;
    [reflexivity|].
  destruct (JsObject.arrayIndex (fst e)).
  - rewrite insertByIndex_perm. simpl. now apply perm_skip.
  - rewrite <- Permutation_middle. now apply perm_skip.
Qed.

Lemma entries_elem_of {V : Type} (o : JsObject.t V) (e : string * V) :
  e ∈ JsObject.entries o <-> e ∈ JsObject.ownProps o.
Proof. now rewrite (entries_perm o). Qed.

(** Away from the key [__proto__], [set] is the insertion of a map. *)
Lemma getOwn_set_eq {V : Type} (k : string) (v : V) (o : JsObject.t V) :
  k <> "__proto__" -> JsObject.getOwn k (JsObject.set k v o) = Some v.
Proof.
  intros Hk. unfold JsObject.getOwn, JsObject.set.
  destruct (String.eqb_spec k "__proto__"); [contradiction|]. apply lookup_assign_eq.
Qed.

Lemma getOwn_set_ne {V : Type} (k k' : string) (v : V) (o : JsObject.t V) :
  k <> k' -> JsObject.getOwn k' (JsObject.set k v o) = JsObject.getOwn k' o.
Proof.
  intros Hne. unfold JsObject.getOwn, JsObject.set.
  destruct (String.eqb_spec k "__proto__"); [reflexivity|]. now apply lookup_assign_ne.
Qed.

(** At the key [__proto__] it leaves the own properties alone. *)
Lemma ownProps_set_proto {V : Type} (v : V) (o : JsObject.t V) :
  JsObject.ownProps (JsObject.set "__proto__" v o) = JsObject.ownProps o.
Proof. reflexivity. Qed.

Lemma keys_set {V : Type} (k : string) (v : V) (o : JsObject.t V) (k' : string) :
  k' ∈ JsObject.keys (JsObject.set k v o)
  <-> (k' = k /\ k <> "__proto__") \/ k' ∈ JsObject.keys o.
Proof.
  unfold JsObject.keys, JsObject.set.
  destruct (String.eqb_spec k "__proto__") as [->|Hk]; simpl.
  - tauto.
  - rewrite keys_assign. tauto.
Qed.

Lemma NoDup_keys_set {V : Type} (k : string) (v : V) (o : JsObject.t V) :
  NoDup (JsObject.keys o) -> NoDup (JsObject.keys (JsObject.set k v o)).
Proof.
  unfold JsObject.keys, JsObject.set.
  destruct (String.eqb k "__proto__"); simpl; [auto | apply NoDup_assign].
Qed.

(** *** The object as a [gmap] *)

Lemma toMap_lookup {V : Type} (o : JsObject.t V) (k : string) :
  JsObject.toMap o !! k = JsObject.getOwn k o.
Proof.
  unfold JsObject.toMap, JsObject.getOwn.
  induction (JsObject.ownProps o) as [|[k1 v1] l IH]; simpl.
  - apply lookup_empty.
  - rewrite lookup_insert. destruct (String.eqb_spec k1 k) as [->|Hk].
    + now rewrite decide_True.
    + now rewrite decide_False.
Qed.

Lemma toMap_set {V : Type} (k : string) (v : V) (o : JsObject.t V) :
  k <> "__proto__" ->
  JsObject.toMap (JsObject.set k v o) = <[k := v]> (JsObject.toMap o).
Proof.
  intros Hk. apply map_eq. intros k'. rewrite lookup_insert, !toMap_lookup.
  destruct (decide (k = k')) as [<-|Hne].
  - now apply getOwn_set_eq.
  - now apply getOwn_set_ne.
Qed.

Lemma toMap_set_proto {V : Type} (v : V) (o : JsObject.t V) :
  JsObject.toMap (JsObject.set "__proto__" v o) = JsObject.toMap o.
Proof. reflexivity. Qed.

Lemma dom_toMap {V : Type} (o : JsObject.t V) :
  dom (JsObject.toMap o) = list_to_set (JsObject.keys o).
Proof.
  apply set_eq. intros k.
  rewrite elem_of_dom, toMap_lookup, elem_of_list_to_set.
  unfold JsObject.getOwn, JsObject.keys. now rewrite lookup_is_Some.
Qed.

(** ** The database snapshot *)

Section SnapshotProperties.

Context {Db ResultSet Row : Type} `{!ClickHouseClient Db ResultSet Row}.
Variable cfg : Config.

(** What the loop leaves in the object: the keys it adds are the listed
    names other than [__proto__], and every value it writes is what some
    [getTableSchema] call for that name returned. *)
Lemma fetchSchemas_returned (ts : list string)
  (o o' : JsObject.t (list ColumnInfo.t)) (w w' : World Db) :
  fetchSchemas cfg ts o w = (Returned o', w') ->
  (forall k, k ∈ JsObject.keys o'
             <-> k ∈ JsObject.keys o \/ (k ∈ ts /\ k <> "__proto__"))
  /\ (NoDup (JsObject.keys o) -> NoDup (JsObject.keys o'))
  /\ (forall k cols,
        JsObject.getOwn k o' = Some cols ->
        JsObject.getOwn k o = Some cols
        \/ (k ∈ ts /\ exists wa wb, getTableSchema cfg k wa = (Returned cols, wb))).
Proof.
  revert o w. induction ts as [|t ts IH]; intros o w.
  - intros [= <- <-]. split; [|split].
    + intros k. rewrite elem_of_nil. tauto.
    + auto.
    + auto.
  - rewrite fetchSchemas_cons.
    destruct (getTableSchema cfg t w) as [[schema|error] w1] eqn:Hget; [|discriminate].
    intros Hrest. destruct (IH _ _ Hrest) as (Hkeys & Hnd & Hvals).
    split; [|split].
    + intros k. rewrite Hkeys, keys_set, elem_of_cons.
      split.
      * intros [[[-> Hk]|Hin]|[Hin Hk]]; auto.
      * intros [Hin|[[->|Hin] Hk]]; auto.
    + intros H. apply Hnd. now apply NoDup_keys_set.
    + intros k cols Hk. destruct (Hvals k cols Hk) as [Hset|[Hin Hres]].
      * destruct (decide (t = k)) as [->|Hne].
        -- destruct (decide (k = "__proto__")) as [->|Hp].
           ++ left. exact Hset.
           ++ rewrite getOwn_set_eq in Hset by exact Hp.
              injection Hset as <-. right. split; [apply elem_of_cons; auto|].
              eauto.
        -- rewrite getOwn_set_ne in Hset by exact Hne. auto.
      * right. split; [apply elem_of_cons; auto | exact Hres].
Qed.

(** A snapshot that [getDatabaseInfo] returns carries the list that
    [listTables] returned, and an object with one entry for each listed
    name other than [__proto__], holding a schema fetched for it. *)
Lemma getDatabaseInfo_snapshot (w w' : World Db) (info : DatabaseInfo) :
  getDatabaseInfo cfg w = (Returned info, w') ->
  fst (listTables cfg w) = Returned (tables info)
  /\ NoDup (JsObject.keys (schemas info))
  /\ (forall k, k ∈ JsObject.keys (schemas info)
                <-> k ∈ tables info /\ k <> "__proto__")
  /\ (forall k cols,
        JsObject.getOwn k (schemas info) = Some cols ->
        exists wa wb, getTableSchema cfg k wa = (Returned cols, wb)).
Proof.
  intros Hrun. apply getDatabaseInfo_returned in Hrun as (_ & w1 & Hlist & Hloop).
  apply fetchSchemas_returned in Hloop as (Hkeys & Hnd & Hvals).
  split; [now rewrite Hlist|]. split; [apply Hnd, NoDup_nil_2|]. split.
  - intros k. rewrite Hkeys. unfold JsObject.keys. simpl. rewrite elem_of_nil. tauto.
  - intros k cols Hk. destruct (Hvals k cols Hk) as [Hempty|[_ Hres]];
      [discriminate | exact Hres].
Qed.

(** With no table called [__proto__] the keys are exactly the listed
    names. *)
Lemma getDatabaseInfo_keys (w w' : World Db) (info : DatabaseInfo) :
  getDatabaseInfo cfg w = (Returned info, w') ->
  "__proto__" ∉ tables info ->
  forall k, k ∈ JsObject.keys (schemas info) <-> k ∈ tables info.
Proof.
  intros Hrun Hproto k.
  destruct (getDatabaseInfo_snapshot _ _ _ Hrun) as (_ & _ & Hkeys & _).
  rewrite Hkeys. split; [tauto|]. intros Hin. split; [exact Hin|].
  intros ->. contradiction.
Qed.

(** As a map, [schemas] is defined on the listed names other than
    [__proto__]. *)
Lemma getDatabaseInfo_dom (w w' : World Db) (info : DatabaseInfo) :
  getDatabaseInfo cfg w = (Returned info, w') ->
  dom (JsObject.toMap (schemas info))
  = list_to_set (tables info) ∖ {[ "__proto__" ]}.
Proof.
  intros Hrun.
  destruct (getDatabaseInfo_snapshot _ _ _ Hrun) as (_ & _ & Hkeys & _).
  rewrite dom_toMap. apply set_eq. intros k.
  rewrite elem_of_list_to_set, Hkeys, elem_of_difference, elem_of_list_to_set,
    elem_of_singleton.
  tauto.
Qed.

(** C10. The [database] field of every snapshot is the database name of
    the configuration that start-up read from the environment, whatever
    client, tables and schemas there are. *)
Theorem getDatabaseInfo_database_is_configured
  (env : gmap string string) (w w' : World Db) (info : DatabaseInfo) :
  loadConfig env = Returned cfg ->
  getDatabaseInfo cfg w = (Returned info, w') ->
  database info = CLICKHOUSE_DATABASE cfg
  /\ env !! "CLICKHOUSE_DATABASE" = Some (database info).
Proof.
  intros Hcfg Hrun. apply getDatabaseInfo_returned in Hrun as (Hdb & _).
  split; [exact Hdb|]. rewrite Hdb. unfold loadConfig in Hcfg.
  destruct (falsy (env !! "CLICKHOUSE_URL") || falsy (env !! "CLICKHOUSE_USERNAME")
            || falsy (env !! "CLICKHOUSE_PASSWORD")
            || falsy (env !! "CLICKHOUSE_DATABASE")) eqn:Hf; [discriminate|].
  injection Hcfg as <-. simpl.
  apply orb_false_iff in Hf as [_ Hf].
  destruct (env !! "CLICKHOUSE_DATABASE"); [reflexivity | discriminate].
Qed.

End SnapshotProperties.

(** ** Queries issued by the metadata paths *)

Section QueryTraces.

Context {Db ResultSet Row : Type} `{!ClickHouseClient Db ResultSet Row}.
Variable cfg : Config.

Lemma listTables_queries (w : World Db) :
  queriesOf (trace (snd (listTables cfg w)))
  = queriesOf (trace w) ++ [ showTablesText cfg ].
Proof.
  rewrite listTables_run. unfold showTablesText, logged, record.
  destruct (client_query _ _ _) as [[result|error] db']; simpl.
  - destruct (json_TableRow result); simpl; rewrite !queriesOf_app; simpl;
      now rewrite ?app_nil_r.
  - rewrite !queriesOf_app. simpl. now rewrite app_nil_r.
Qed.

Lemma getTableSchema_queries (tableName : string) (w : World Db) :
  queriesOf (trace (snd (getTableSchema cfg tableName w)))
  = queriesOf (trace w) ++ [ describeText cfg tableName ].
Proof.
  rewrite getTableSchema_run. unfold describeText, logged, record.
  destruct (client_query _ _ _) as [[result|error] db']; simpl.
  - destruct (json_ColumnInfo result); simpl; rewrite !queriesOf_app; simpl;
      now rewrite ?app_nil_r.
  - rewrite !queriesOf_app. simpl. now rewrite app_nil_r.
Qed.

Lemma fetchSchemas_queries (ts : list string)
  (o : JsObject.t (list ColumnInfo.t)) (w : World Db) :
  exists fetched rest,
    ts = fetched ++ rest
    /\ queriesOf (trace (snd (fetchSchemas cfg ts o w)))
       = queriesOf (trace w) ++ map (describeText cfg) fetched
    /\ (forall o', fst (fetchSchemas cfg ts o w) = Returned o' -> rest = []).
Proof.
  revert o w. induction ts as [|t ts IH]; intros o w.
  - exists [], []. simpl. now rewrite app_nil_r.
  - rewrite fetchSchemas_cons.
    pose proof (getTableSchema_queries t w) as Hq.
    destruct (getTableSchema cfg t w) as [[schema|error] w1]; simpl in Hq.
    + destruct (IH (JsObject.set t schema o) w1) as (fetched & rest & -> & Htr & Hdone).
      exists (t :: fetched), rest. split; [reflexivity|]. split; [|exact Hdone].
      rewrite Htr, Hq. simpl. now rewrite <- app_assoc.
    + exists [t], ts. split; [reflexivity|]. split; [exact Hq|]. discriminate.
Qed.

(** [getDatabaseInfo] sends one [SHOW TABLES] and then [DESCRIBE TABLE]
    statements for listed tables, and nothing else; when it returns, it
    has described every listed table, in order. *)
Lemma getDatabaseInfo_queries (w : World Db) :
  exists described,
    queriesOf (trace (snd (getDatabaseInfo cfg w)))
    = queriesOf (trace w) ++ showTablesText cfg :: map (describeText cfg) described
    /\ (forall info, fst (getDatabaseInfo cfg w) = Returned info ->
                     described = tables info).
Proof.
  rewrite getDatabaseInfo_run.
  pose proof (listTables_queries w) as Hq.
  destruct (listTables cfg w) as [[ts|error] w1]; simpl in Hq.
  - destruct (fetchSchemas_queries ts JsObject.empty w1)
      as (fetched & rest & -> & Htr & Hdone).
    exists fetched.
    destruct (fetchSchemas cfg (fetched ++ rest) JsObject.empty w1)
      as [[o|error] w2]; simpl in *.
    + split; [now rewrite Htr, Hq, <- app_assoc|].
      intros info [= <-]. simpl. rewrite (Hdone o eq_refl). now rewrite app_nil_r.
    + split; [|discriminate].
      rewrite queriesOf_app, Htr, Hq. simpl. now rewrite app_nil_r, <- app_assoc.
  - exists []. split; [|discriminate].
    unfold logged, record. simpl. rewrite queriesOf_app, Hq. simpl.
    now rewrite app_nil_r.
Qed.

(** The described names are an initial part of the names listed. *)
Lemma getDatabaseInfo_queries_listed (w : World Db) :
  exists described,
    queriesOf (trace (snd (getDatabaseInfo cfg w)))
    = queriesOf (trace w) ++ showTablesText cfg :: map (describeText cfg) described
    /\ match fst (listTables cfg w) with
       | Returned listed => exists rest, listed = described ++ rest
       | Threw _ => described = []
       end.
Proof.
  rewrite getDatabaseInfo_run.
  pose proof (listTables_queries w) as Hq.
  destruct (listTables cfg w) as [[ts|error] w1]; simpl in Hq.
  - destruct (fetchSchemas_queries ts JsObject.empty w1)
      as (fetched & rest & -> & Htr & _).
    exists fetched. simpl. split; [|eauto].
    destruct (fetchSchemas cfg (fetched ++ rest) JsObject.empty w1)
      as [[o|error] w2]; simpl in *.
    + now rewrite Htr, Hq, <- app_assoc.
    + rewrite queriesOf_app, Htr, Hq. simpl. now rewrite app_nil_r, <- app_assoc.
  - exists []. simpl. split; [|reflexivity].
    unfold logged, record. simpl. rewrite queriesOf_app, Hq. simpl.
    now rewrite app_nil_r.
Qed.

(** X12. [getTableSampleData] sends the one statement [SELECT * FROM
    <db>.<tableName> LIMIT 5], the table name spliced in as it came, and
    returns the rows of the answer as they are: the row bound is the
    one the database applies when it reads that text. *)
Lemma getTableSampleData_passthrough (tableName : string) (w : World Db) :
  queriesOf (trace (snd (getTableSampleData (Row := Row) cfg tableName w)))
  = queriesOf (trace w) ++ [ sampleText cfg tableName ]
  /\ fst (getTableSampleData (Row := Row) cfg tableName w)
     = match fst (client_query (sampleText cfg tableName) "JSONEachRow" (dbState w)) with
       | Returned result => json_Row result
       | Threw error => Threw error
       end.
Proof.
  rewrite getTableSampleData_run. unfold sampleText, logged, record.
  destruct (client_query _ _ _) as [[result|error] db']; simpl.
  - destruct (json_Row result); simpl; rewrite !queriesOf_app; simpl;
      now rewrite ?app_nil_r.
  - rewrite !queriesOf_app. simpl. now rewrite app_nil_r.
Qed.

End QueryTraces.

(** ** The protocol adapter *)

Lemma join_cons (sep x y : string) (l : list string) :
  JsString.join sep (x :: y :: l) = x +:+ sep +:+ JsString.join sep (y :: l).
Proof. reflexivity. Qed.

Lemma Substring_join (sep x : string) (l : list string) :
  x ∈ l -> JsString.Substring x (JsString.join sep l).
Proof.
  induction l as [|y l IH]; [now rewrite elem_of_nil|].
  rewrite elem_of_cons. intros [->|Hin].
  - destruct l as [|z l]; [apply Substring_refl|].
    rewrite join_cons. apply Substring_append_r with (s := y), Substring_refl.
  - destruct l as [|z l]; [now apply elem_of_nil in Hin|].
    rewrite join_cons. now apply Substring_append_l, Substring_append_l, IH.
Qed.

Lemma answerText_parts (question schemaInfo : string) :
  JsString.Substring (dquote +:+ question +:+ dquote) (answerText question schemaInfo)
  /\ JsString.Substring schemaInfo (answerText question schemaInfo)
  /\ JsString.Substring suggestionText (answerText question schemaInfo).
Proof.
  unfold answerText. split; [|split].
  - exists "Based on your question: ". eexists.
    rewrite !append_assoc. reflexivity.
  - do 7 apply Substring_append_l.
    apply Substring_append_r with (s := schemaInfo), Substring_refl.
  - do 16 apply Substring_append_l. apply Substring_refl.
Qed.

Lemma Substring_trans (a b c : string) :
  JsString.Substring a b -> JsString.Substring b c -> JsString.Substring a c.
Proof.
  intros Hab (x & y & ->). now apply Substring_append_l, Substring_append_r.
Qed.

Section AdapterProperties.

Context {Db ResultSet Row : Type} `{!ClickHouseClient Db ResultSet Row}.
Context `{!JSON DatabaseInfo} `{!JSON (list ColumnInfo.t)} `{!JSON (list Row)}.
Variable cfg : Config.

(** C7. When [listTables] returns, the [list] callbacks of both
    templates return one resource per listed table, in the same order,
    with URIs [table://<name>/schema] and [table://<name>/sample]. *)
Theorem template_lists_enumerate_tables
  (w w1 : World Db) (listed : list string) :
  listTables cfg w = (Returned listed, w1) ->
  exists schemaList sampleList,
    tableSchemaList cfg w = (Returned schemaList, w1)
    /\ tableSampleList cfg w = (Returned sampleList, w1)
    /\ length (resources schemaList) = length listed
    /\ length (resources sampleList) = length listed
    /\ map res_uri (resources schemaList)
       = map (fun table => "table://" +:+ table +:+ "/schema") listed
    /\ map res_uri (resources sampleList)
       = map (fun table => "table://" +:+ table +:+ "/sample") listed.
Proof.
  intros Hlist. eexists _, _.
  unfold tableSchemaList, tableSampleList, mbind, M_bind, bind, mret, M_ret, ret.
  rewrite Hlist. simpl. repeat split.
  - apply List.length_map.
  - apply List.length_map.
  - cbn [resources]. now rewrite List.map_map.
  - cbn [resources]. now rewrite List.map_map.
Qed.

(** C4. The three resource handlers end exactly as the service call
    they make: a thrown error is thrown on, unchanged.  The two tool
    handlers always return: a thrown error becomes the response with
    [isError] set and the text "Error: <message>", where <message> is
    the [message] of an [Error] and the string form of any other thrown
    value. *)
Theorem resources_rethrow_tools_report
  (uri : URL) (tableName : TemplateValue) (query question : string) (w : World Db) :
  fst (databaseInfoRead cfg uri w)
  = match fst (getDatabaseInfo cfg w) with
    | Returned dbInfo =>
        Returned {| contents := [ {| rc_uri := href uri;
                                     rc_text := JSON_stringify dbInfo;
                                     rc_mimeType := "application/json" |} ] |}
    | Threw error => Threw error
    end
  /\ fst (tableSchemaRead cfg uri tableName w)
     = match fst (getTableSchema cfg (tableNameStr tableName) w) with
       | Returned schema =>
           Returned {| contents := [ {| rc_uri := href uri;
                                        rc_text := JSON_stringify schema;
                                        rc_mimeType := "application/json" |} ] |}
       | Threw error => Threw error
       end
  /\ fst (tableSampleRead cfg uri tableName w)
     = match fst (getTableSampleData (Row := Row) cfg (tableNameStr tableName) w) with
       | Returned sampleData =>
           Returned {| contents := [ {| rc_uri := href uri;
                                        rc_text := JSON_stringify sampleData;
                                        rc_mimeType := "application/json" |} ] |}
       | Threw error => Threw error
       end
  /\ fst (executeSql query w)
     = Returned
         match fst (executeQuery (Row := Row) query w) with
         | Returned results =>
             {| content := [ {| tc_type := "text"; tc_text := JSON_stringify results |} ];
                isError := None |}
         | Threw (ErrorObject message) =>
             {| content := [ {| tc_type := "text";
                                tc_text := "Error: " +:+ message |} ];
                isError := Some true |}
         | Threw (ThrownValue rendering) =>
             {| content := [ {| tc_type := "text";
                                tc_text := "Error: " +:+ rendering |} ];
                isError := Some true |}
         end
  /\ fst (naturalLanguageQuery cfg question w)
     = Returned
         match fst (getDatabaseInfo cfg w) with
         | Returned dbInfo =>
             {| content :=
                  [ {| tc_type := "text";
                       tc_text :=
                         answerText question
                           (JsString.join (newline +:+ newline)
                              (map tableLine (JsObject.entries (schemas dbInfo)))) |} ];
                isError := None |}
         | Threw (ErrorObject message) =>
             {| content := [ {| tc_type := "text";
                                tc_text := "Error: " +:+ message |} ];
                isError := Some true |}
         | Threw (ThrownValue rendering) =>
             {| content := [ {| tc_type := "text";
                                tc_text := "Error: " +:+ rendering |} ];
                isError := Some true |}
         end.
Proof.
  unfold databaseInfoRead, tableSchemaRead, tableSampleRead, executeSql,
    naturalLanguageQuery, tryCatch, mbind, M_bind, bind.
  repeat split.
  - now destruct (getDatabaseInfo cfg w) as [[?|?] ?].
  - now destruct (getTableSchema cfg (tableNameStr tableName) w) as [[?|?] ?].
  - now destruct (getTableSampleData cfg (tableNameStr tableName) w) as [[?|?] ?].
  - now destruct (executeQuery query w) as [[?|[?|?]] ?].
  - now destruct (getDatabaseInfo cfg w) as [[?|[?|?]] ?].
Qed.

(** X10. The answer of [natural-language-query] when the snapshot is
    there: no error flag, and a text that contains the question, the
    sentence [You can execute specific SQL queries using the
    "execute-sql" tool.], and for every entry of [schemas] the line
    [Table "<name>" has columns: <col> (<type>), <col> (<type>), ...]. *)
Theorem naturalLanguageQuery_answer
  (question : string) (w w' : World Db) (info : DatabaseInfo) :
  getDatabaseInfo cfg w = (Returned info, w') ->
  let q := String "034"%char EmptyString in
  exists text,
    naturalLanguageQuery cfg question w
    = (Returned {| content := [ {| tc_type := "text"; tc_text := text |} ];
                   isError := None |}, w')
    /\ JsString.Substring question text
    /\ JsString.Substring
         ("You can execute specific SQL queries using the " +:+ q
          +:+ "execute-sql" +:+ q +:+ " tool.") text
    /\ (forall k cols,
          JsObject.getOwn k (schemas info) = Some cols ->
          JsString.Substring
            ("Table " +:+ q +:+ k +:+ q +:+ " has columns: "
             +:+ String.concat ", "
                   (map (fun c => ColumnInfo.name c +:+ " (" +:+ ColumnInfo.type c +:+ ")")
                        cols))
            text).
Proof.
  intros Hinfo q. eexists. split.
  - unfold naturalLanguageQuery, tryCatch, mbind, M_bind, bind.
    rewrite Hinfo. reflexivity.
  - match goal with |- context [answerText ?x ?y] =>
      destruct (answerText_parts x y) as (Hq & Hs & Hsug) end.
    split; [|split].
    + eapply Substring_trans; [|exact Hq].
      apply Substring_append_l, Substring_append_r with (s := question), Substring_refl.
    + exact Hsug.
    + intros k cols Hk. eapply Substring_trans; [|exact Hs].
      apply (Substring_join (newline +:+ newline) (tableLine (k, cols))).
      apply list_elem_of_In, in_map, list_elem_of_In.
      apply entries_elem_of. now apply lookup_elem_of.
Qed.

(** X11. The tool never hands the question, or any other text of the
    caller, to the client: whatever the question, it sends [SHOW TABLES
    FROM <database>] and then [DESCRIBE TABLE <database>.<name>] for an
    initial part of the names that this very listing returned (none
    when the listing failed). *)
Theorem naturalLanguageQuery_queries (question : string) (w : World Db) :
  exists described,
    queriesOf (trace (snd (naturalLanguageQuery cfg question w)))
    = queriesOf (trace w)
      ++ ("SHOW TABLES FROM " +:+ CLICKHOUSE_DATABASE cfg)
         :: map (fun table => "DESCRIBE TABLE " +:+ CLICKHOUSE_DATABASE cfg
                              +:+ "." +:+ table)
                described
    /\ match fst (listTables cfg w) with
       | Returned listed => exists rest, listed = described ++ rest
       | Threw _ => described = []
       end.
Proof.
  destruct (getDatabaseInfo_queries_listed cfg w) as (described & Hq & Hlisted).
  exists described. split; [|exact Hlisted].
  unfold naturalLanguageQuery, tryCatch, mbind, M_bind, bind.
  destruct (getDatabaseInfo cfg w) as [[info|error] w1]; simpl in *; [exact Hq|].
  run_effects. rewrite queriesOf_app, Hq. simpl. now rewrite app_nil_r.
Qed.

End AdapterProperties.

(** ** Start-up *)

(** C8. If one of the four variables is unset, evaluation stops with
    the "Missing required ClickHouse environment variables" error while
    the service module loads: the process crashes with no effect at all,
    so no client was created, no query sent and the server never
    connected. *)
Theorem main_crashes_on_missing_configuration
  (env : gmap string string) (created connect closed : Outcome unit) :
  env !! "CLICKHOUSE_URL" = None
  \/ env !! "CLICKHOUSE_USERNAME" = None
  \/ env !! "CLICKHOUSE_PASSWORD" = None
  \/ env !! "CLICKHOUSE_DATABASE" = None ->
  main env created connect closed
  = ([], Crashed (ErrorObject "Missing required ClickHouse environment variables"))
  /\ forall e, e ∈ fst (main env created connect closed) ->
               isCreateClient e = false /\ isConnect e = false /\ isQuery e = false.
Proof.
  intros Hmissing.
  assert (Hload : loadConfig env
                  = Threw (ErrorObject "Missing required ClickHouse environment variables")).
  { unfold loadConfig.
    destruct Hmissing as [-> | [-> | [-> | ->]]]; simpl;
      rewrite ?orb_true_r; reflexivity. }
  unfold main. rewrite Hload. split; [reflexivity|].
  intros e He. now apply elem_of_nil in He.
Qed.

(** With the four variables set to non-empty values the configuration
    is read and the server goes on to create its client and connect. *)
Lemma main_starts_when_configured :
  loadConfig Double.fullEnv = Returned Double.analyticsCfg
  /\ fst (main Double.fullEnv (Returned tt) (Returned tt) (Returned tt))
     = [ EvCreateClient Double.analyticsCfg;
         EvConsoleError "Starting ClickHouse MCP Server..." None;
         EvConnect;
         EvConsoleError "ClickHouse MCP Server running on stdio" None;
         EvOnSigint ].
Proof. split; reflexivity. Qed.

(** ** Runs on concrete databases *)

Lemma executeSql_rejects_blocked_witness :
  (exists kw, kw ∈ blockedKeywords
              /\ JsString.Substring kw (normalizedQuery "DROP TABLE events"))
  /\ exists r w',
       @executeSql _ _ _ Double.engine Double.jsonRows "DROP TABLE events"
         (Double.start Double.analytics) = (Returned r, w')
       /\ r = {| content := [ {| tc_type := "text";
                                 tc_text := "Error: Only read-only queries are allowed" |} ];
                 isError := Some true |}
       /\ Forall (fun c => String.prefix "Error:" (tc_text c) = true) (content r)
       /\ trace w'
          = trace (Double.start Double.analytics)
            ++ [ EvConsoleError "Error executing query:"
                   (Some (ErrorObject "Only read-only queries are allowed"));
                 EvConsoleError "Error executing SQL query:"
                   (Some (ErrorObject "Only read-only queries are allowed")) ]
       /\ queriesOf (trace w') = queriesOf (trace (Double.start Double.analytics))
       /\ dbState w' = dbState (Double.start Double.analytics).
Proof.
  assert (Hkw : exists kw, kw ∈ blockedKeywords
                           /\ JsString.Substring kw (normalizedQuery "DROP TABLE events")).
  { apply isBlocked_true. reflexivity. }
  split; [exact Hkw|].
  apply (@executeSql_rejects_blocked _ _ _ Double.engine Double.jsonRows
           "DROP TABLE events" (Double.start Double.analytics) Hkw).
Defined.

Lemma executeQuery_forwards_unmodified_witness :
  (forall kw, kw ∈ blockedKeywords ->
              ~ JsString.Substring kw
                  (normalizedQuery "  SELECT * FROM analytics.events LIMIT 1 "))
  /\ exists logs,
       trace (snd (@executeQuery _ _ _ Double.engine
                     "  SELECT * FROM analytics.events LIMIT 1 "
                     (Double.start Double.analytics)))
       = [] ++ EvQuery "  SELECT * FROM analytics.events LIMIT 1 " "JSONEachRow" :: logs
       /\ queriesOf logs = []
       /\ dbState (snd (@executeQuery _ _ _ Double.engine
                          "  SELECT * FROM analytics.events LIMIT 1 "
                          (Double.start Double.analytics)))
          = snd (@client_query _ _ _ Double.engine
                   "  SELECT * FROM analytics.events LIMIT 1 " "JSONEachRow"
                   Double.analytics)
       /\ fst (@executeQuery _ _ _ Double.engine
                 "  SELECT * FROM analytics.events LIMIT 1 "
                 (Double.start Double.analytics))
          = match fst (@client_query _ _ _ Double.engine
                         "  SELECT * FROM analytics.events LIMIT 1 " "JSONEachRow"
                         Double.analytics) with
            | Returned result => Double.asRows result
            | Threw error => Threw error
            end.
Proof.
  assert (Hkw : forall kw, kw ∈ blockedKeywords ->
                  ~ JsString.Substring kw
                      (normalizedQuery "  SELECT * FROM analytics.events LIMIT 1 ")).
  { apply isBlocked_false. reflexivity. }
  split; [exact Hkw|].
  apply (@executeQuery_forwards_unmodified _ _ _ Double.engine
           "  SELECT * FROM analytics.events LIMIT 1 "
           (Double.start Double.analytics) Hkw).
Defined.

Lemma getDatabaseInfo_aborts_on_schema_failure_witness :
  let w := Double.start Double.usersDropped in
  let w1 := snd (@listTables _ _ _ Double.scripted Double.analyticsCfg w) in
  let wk := snd (@fetchSchemas _ _ _ Double.scripted Double.analyticsCfg
                   [ "events" ] JsObject.empty w1) in
  @listTables _ _ _ Double.scripted Double.analyticsCfg w
  = (Returned [ "events"; "users" ], w1)
  /\ fst (@getTableSchema _ _ _ Double.scripted Double.analyticsCfg "users" wk)
     = Threw (Double.unknownTable "users")
  /\ fst (@getDatabaseInfo _ _ _ Double.scripted Double.analyticsCfg w)
     = Threw (Double.unknownTable "users")
  /\ forall info,
       fst (@getDatabaseInfo _ _ _ Double.scripted Double.analyticsCfg w)
       <> Returned info.
Proof.
  intros w w1 wk.
  split; [reflexivity|]. split; [reflexivity|].
  apply (@getDatabaseInfo_aborts_on_schema_failure _ _ _ Double.scripted
           Double.analyticsCfg w w1 wk [ "events"; "users" ] [ "events" ] []
           "users"
           (JsObject.mk [ ("events", [ Double.col "id" "UInt64";
                                       Double.col "ts" "DateTime" ]) ] None)
           (Double.unknownTable "users"));
    reflexivity.
Defined.

Lemma template_lists_enumerate_tables_witness :
  let w := Double.start Double.analytics in
  let w1 := snd (@listTables _ _ _ Double.engine Double.analyticsCfg w) in
  @listTables _ _ _ Double.engine Double.analyticsCfg w
  = (Returned [ "events"; "users" ], w1)
  /\ exists schemaList sampleList,
       @tableSchemaList _ _ _ Double.engine Double.analyticsCfg w
       = (Returned schemaList, w1)
       /\ @tableSampleList _ _ _ Double.engine Double.analyticsCfg w
          = (Returned sampleList, w1)
       /\ length (resources schemaList) = 2
       /\ length (resources sampleList) = 2
       /\ map res_uri (resources schemaList)
          = [ "table://events/schema"; "table://users/schema" ]
       /\ map res_uri (resources sampleList)
          = [ "table://events/sample"; "table://users/sample" ].
Proof.
  intros w w1. split; [reflexivity|].
  apply (@template_lists_enumerate_tables _ _ _ Double.engine Double.analyticsCfg
           w w1 [ "events"; "users" ]).
  reflexivity.
Defined.

Lemma getDatabaseInfo_database_is_configured_witness :
  let w := Double.start Double.analytics in
  let w' := snd (@getDatabaseInfo _ _ _ Double.engine Double.analyticsCfg w) in
  loadConfig Double.fullEnv = Returned Double.analyticsCfg
  /\ @getDatabaseInfo _ _ _ Double.engine Double.analyticsCfg w
     = (Returned Double.analyticsInfo, w')
  /\ database Double.analyticsInfo = "analytics"
  /\ Double.fullEnv !! "CLICKHOUSE_DATABASE" = Some (database Double.analyticsInfo).
Proof.
  intros w w'.
  assert (Hcfg : loadConfig Double.fullEnv = Returned Double.analyticsCfg)
    by reflexivity.
  assert (Hrun : @getDatabaseInfo _ _ _ Double.engine Double.analyticsCfg w
                 = (Returned Double.analyticsInfo, w')) by reflexivity.
  split; [exact Hcfg|]. split; [exact Hrun|].
  apply (@getDatabaseInfo_database_is_configured _ _ _ Double.engine
           Double.analyticsCfg Double.fullEnv w w' Double.analyticsInfo Hcfg Hrun).
Defined.

Lemma main_crashes_on_missing_configuration_witness :
  Double.envWithoutPassword !! "CLICKHOUSE_PASSWORD" = None
  /\ main Double.envWithoutPassword (Returned tt) (Returned tt) (Returned tt)
     = ([], Crashed (ErrorObject "Missing required ClickHouse environment variables")).
Proof.
  assert (Hmissing : Double.envWithoutPassword !! "CLICKHOUSE_PASSWORD" = None)
    by reflexivity.
  split; [exact Hmissing|].
  apply (main_crashes_on_missing_configuration Double.envWithoutPassword
           (Returned tt) (Returned tt) (Returned tt)).
  right. right. left. exact Hmissing.
Defined.

(** *** A table named [__proto__] *)

(** C3, on the database that has a table [__proto__]: the call
    succeeds, [tables] lists the three names [listTables] returns and
    the schema of [__proto__] is fetched, but the assignment
    [tableSchemas["__proto__"] = ...] creates no property: [schemas] has
    the two entries [events] and [users] only. *)
Theorem getDatabaseInfo_loses_proto_table :
  let w := Double.start Double.analyticsWithProto in
  exists info w',
    @getDatabaseInfo _ _ _ Double.engine Double.analyticsCfg w = (Returned info, w')
    /\ fst (@listTables _ _ _ Double.engine Double.analyticsCfg w)
       = Returned [ "events"; "users"; "__proto__" ]
    /\ tables info = [ "events"; "users"; "__proto__" ]
    /\ fst (@getTableSchema _ _ _ Double.engine Double.analyticsCfg "__proto__" w)
       = Returned [ Double.col "id" "UInt64" ]
    /\ JsObject.entries (schemas info)
       = [ ("events", [ Double.col "id" "UInt64"; Double.col "ts" "DateTime" ]);
           ("users", [ Double.col "id" "UInt64"; Double.col "name" "String" ]) ]
    /\ JsObject.getOwn "__proto__" (schemas info) = None.
Proof. intros w. eexists _, _. repeat split; reflexivity. Qed.

(** C9, on the same database: the answer has the lines of [events] and
    [users] and none for the listed table [__proto__], whose name does
    not occur in the text at all. *)
Theorem naturalLanguageQuery_omits_proto_table :
  let w := Double.start Double.analyticsWithProto in
  exists text w',
    @naturalLanguageQuery _ _ _ Double.engine Double.analyticsCfg
      "which tables are there?" w
    = (Returned {| content := [ {| tc_type := "text"; tc_text := text |} ];
                   isError := None |}, w')
    /\ fst (@listTables _ _ _ Double.engine Double.analyticsCfg w)
       = Returned [ "events"; "users"; "__proto__" ]
    /\ JsString.includes text
         (tableLine ("users", [ Double.col "id" "UInt64"; Double.col "name" "String" ]))
       = true
    /\ JsString.includes text
         (tableLine ("__proto__", [ Double.col "id" "UInt64" ])) = false
    /\ JsString.includes text "__proto__" = false.
Proof. intros w. eexists _, _. repeat split; vm_compute; reflexivity. Qed.

(** *** A table name that ends in a comment marker *)

(** C5, on the database whose table [events] has six rows: for the
    name [events] the statement ends in [LIMIT 5] and five rows come
    back; for the name [events--] the statement sent is
    [SELECT * FROM analytics.events-- LIMIT 5], in which the limit is
    part of a comment, and all six rows come back. *)
Theorem getTableSampleData_limit_commented_out :
  let w := Double.start Double.analytics in
  queriesOf (trace (snd (@getTableSampleData _ _ _ Double.engine Double.analyticsCfg
                           "events--" w)))
  = [ "SELECT * FROM analytics.events-- LIMIT 5" ]
  /\ (exists rows,
        fst (@getTableSampleData _ _ _ Double.engine Double.analyticsCfg "events--" w)
        = Returned rows
        /\ length rows = 6)
  /\ (exists rows,
        fst (@getTableSampleData _ _ _ Double.engine Double.analyticsCfg "events" w)
        = Returned rows
        /\ length rows = 5).
Proof.
  intros w. split; [reflexivity|].
  split; eexists; split; reflexivity.
Qed.

(** The scenario of the specification on the two-table database. *)
Example getDatabaseInfo_scenario :
  fst (@getDatabaseInfo _ _ _ Double.engine Double.analyticsCfg
         (Double.start Double.analytics))
  = Returned Double.analyticsInfo.
Proof. reflexivity. Qed.

Example resources_fail_tools_report_scenario :
  fst (@databaseInfoRead _ _ _ Double.scripted Double.jsonInfo Double.analyticsCfg
         {| href := "db://info" |} (Double.start Double.unreachable))
  = Threw (ErrorObject "socket hang up")
  /\ fst (@naturalLanguageQuery _ _ _ Double.scripted Double.analyticsCfg
            "how many users signed up last week?" (Double.start Double.unreachable))
     = Returned {| content := [ {| tc_type := "text";
                                   tc_text := "Error: socket hang up" |} ];
                   isError := Some true |}.
Proof. split; reflexivity. Qed.

(** * Further properties of the code *)

(** ** The guard, on the raw text *)

Lemma isWhiteSpace_lowerChar (c : ascii) :
  JsString.isWhiteSpace (JsString.lowerChar c) = JsString.isWhiteSpace c.
Proof. destruct c as [[] [] [] [] [] [] [] []]; reflexivity. Qed.

Lemma lowerChar_idem (c : ascii) :
  JsString.lowerChar (JsString.lowerChar c) = JsString.lowerChar c.
Proof. destruct c as [[] [] [] [] [] [] [] []]; reflexivity. Qed.

Lemma toLowerCase_idem (s : string) :
  JsString.toLowerCase (JsString.toLowerCase s) = JsString.toLowerCase s.
Proof.
  induction s as [|c s IH]; simpl; [reflexivity|].
  now rewrite lowerChar_idem, IH.
Qed.

Lemma toLowerCase_app (a b : string) :
  JsString.toLowerCase (a +:+ b) = JsString.toLowerCase a +:+ JsString.toLowerCase b.
Proof.
  induction a as [|c a IH]; [reflexivity|].
  rewrite append_cons. simpl. now rewrite IH, append_cons.
Qed.

Lemma toLowerCase_trimStart (s : string) :
  JsString.toLowerCase (JsString.trimStart s)
  = JsString.trimStart (JsString.toLowerCase s).
Proof.
  induction s as [|c s IH]; simpl; [reflexivity|].
  rewrite isWhiteSpace_lowerChar. now destruct (JsString.isWhiteSpace c).
Qed.

Lemma toLowerCase_trimEnd (s : string) :
  JsString.toLowerCase (JsString.trimEnd s)
  = JsString.trimEnd (JsString.toLowerCase s).
Proof.
  induction s as [|c s IH]; simpl; [reflexivity|].
  rewrite <- IH, isWhiteSpace_lowerChar.
  destruct (JsString.trimEnd s); simpl; [|reflexivity].
  now destruct (JsString.isWhiteSpace c).
Qed.

Lemma toLowerCase_trim (s : string) :
  JsString.toLowerCase (JsString.trim s) = JsString.trim (JsString.toLowerCase s).
Proof.
  unfold JsString.trim. now rewrite toLowerCase_trimEnd, toLowerCase_trimStart.
Qed.

Lemma prefix_cons (k c : ascii) (kw s : string) :
  String.prefix (String k kw) (String c s)
  = if ascii_dec k c then String.prefix kw s else false.
Proof. reflexivity. Qed.

Lemma includes_trimStart (s kw : string) :
  JsString.solid kw = true -> kw <> EmptyString ->
  JsString.includes (JsString.trimStart s) kw = JsString.includes s kw.
Proof.
  intros Hsolid Hne. destruct kw as [|k kw]; [contradiction|].
  simpl in Hsolid. apply andb_true_iff in Hsolid as [Hk _].
  induction s as [|c s IH]; [reflexivity|].
  cbn [JsString.trimStart]. destruct (JsString.isWhiteSpace c) eqn:Hc; [|reflexivity].
  rewrite IH, (includes_unfold (String c s)), prefix_cons.
  destruct (ascii_dec k c) as [->|_]; [|reflexivity].
  rewrite Hc in Hk. discriminate.
Qed.

Lemma prefix_trimEnd (s kw : string) :
  JsString.solid kw = true ->
  String.prefix kw (JsString.trimEnd s) = String.prefix kw s.
Proof.
  revert kw. induction s as [|c s IH]; intros kw Hsolid; [reflexivity|].
  destruct kw as [|k kw]; [now destruct (JsString.trimEnd (String c s))|].
  simpl in Hsolid. apply andb_true_iff in Hsolid as [Hk Hkw].
  specialize (IH kw Hkw). cbn [JsString.trimEnd].
  destruct (JsString.trimEnd s) as [|x t] eqn:Ht.
  - destruct (JsString.isWhiteSpace c) eqn:Hc.
    + rewrite prefix_cons. destruct (ascii_dec k c) as [->|_]; [|now destruct kw].
      rewrite Hc in Hk. discriminate.
    + rewrite !prefix_cons. now destruct (ascii_dec k c).
  - rewrite !prefix_cons. now destruct (ascii_dec k c).
Qed.

Lemma includes_trimEnd (s kw : string) :
  JsString.solid kw = true -> kw <> EmptyString ->
  JsString.includes (JsString.trimEnd s) kw = JsString.includes s kw.
Proof.
  intros Hsolid Hne. induction s as [|c s IH]; [reflexivity|].
  rewrite (includes_unfold (String c s)), <- (prefix_trimEnd (String c s) kw Hsolid), <- IH.
  cbn [JsString.trimEnd].
  destruct (JsString.trimEnd s) as [|x t] eqn:Ht.
  - destruct (JsString.isWhiteSpace c).
    + rewrite includes_unfold. now destruct (String.prefix kw EmptyString).
    + rewrite (includes_unfold (String c EmptyString)). reflexivity.
  - rewrite (includes_unfold (String c (String x t))). reflexivity.
Qed.

Lemma includes_trim (s kw : string) :
  JsString.solid kw = true -> kw <> EmptyString ->
  JsString.includes (JsString.trim s) kw = JsString.includes s kw.
Proof.
  intros Hsolid Hne. unfold JsString.trim.
  now rewrite includes_trimEnd, includes_trimStart.
Qed.

Lemma isBlocked_untrimmed (query : string) :
  isBlocked query
  = existsb (JsString.includes (JsString.toLowerCase query)) blockedKeywords.
Proof.
  rewrite isBlocked_existsb. unfold normalizedQuery, blockedKeywords.
  rewrite toLowerCase_trim. cbn [existsb].
  rewrite !includes_trim by (reflexivity || discriminate). reflexivity.
Qed.

Lemma isBlocked_substring (query : string) :
  isBlocked query = true <->
  exists kw, kw ∈ blockedKeywords
             /\ JsString.Substring kw (JsString.toLowerCase query).
Proof.
  rewrite isBlocked_untrimmed, existsb_exists. split.
  - intros (kw & Hin & Hinc). exists kw. split.
    + now apply list_elem_of_In.
    + now apply includes_spec.
  - intros (kw & Hin & Hsub). exists kw. split.
    + now apply list_elem_of_In.
    + now apply includes_spec.
Qed.

(** X1. The verdict of the guard depends on the lower-cased text alone:
    the [trim()] of line 84 never changes it, and a query trimmed or
    lower-cased beforehand gets the verdict of the original. *)
Theorem guard_ignores_trim_and_case (query : string) :
  isBlocked query
  = existsb (JsString.includes (JsString.toLowerCase query)) blockedKeywords
  /\ isBlocked (JsString.trim query) = isBlocked query
  /\ isBlocked (JsString.toLowerCase query) = isBlocked query.
Proof.
  split; [apply isBlocked_untrimmed|]. split.
  - rewrite !isBlocked_untrimmed, toLowerCase_trim. unfold blockedKeywords.
    cbn [existsb]. rewrite !includes_trim by (reflexivity || discriminate).
    reflexivity.
  - now rewrite !isBlocked_untrimmed, toLowerCase_idem.
Qed.

(** X2. A word that lower-cases to one of the six keywords blocks the
    query wherever it stands and whatever surrounds it: inside another
    word, a string literal or a comment alike. *)
Theorem guard_blocks_keyword_anywhere (before word after : string) :
  JsString.toLowerCase word ∈ blockedKeywords ->
  isBlocked (before +:+ word +:+ after) = true.
Proof.
  intros Hkw. apply isBlocked_substring.
  exists (JsString.toLowerCase word). split; [exact Hkw|].
  rewrite !toLowerCase_app. eexists _, _. reflexivity.
Qed.

(** X3. A rejected query stays rejected when text is put before or
    after it; so every part of an accepted query is itself accepted. *)
Theorem guard_monotone (before query after : string) :
  isBlocked query = true ->
  isBlocked (before +:+ query +:+ after) = true.
Proof.
  intros Hb. apply isBlocked_substring in Hb as (kw & Hin & Hsub).
  apply isBlocked_substring. exists kw. split; [exact Hin|].
  rewrite !toLowerCase_app.
  now apply Substring_append_l, Substring_append_r.
Qed.

(** ** The service, beyond the claims *)

Section ServiceExtras.

Context {Db ResultSet Row : Type} `{!ClickHouseClient Db ResultSet Row}.
Context `{!JSON (list Row)}.
Variable cfg : Config.

Lemma executeQuery_queries (query : string) (w : World Db) :
  queriesOf (trace (snd (executeQuery (Row := Row) query w)))
  = queriesOf (trace w) ++ (if isBlocked query then [] else [ query ]).
Proof.
  destruct (isBlocked query) eqn:Hb.
  - rewrite (executeQuery_blocked query w Hb). simpl.
    rewrite queriesOf_app. reflexivity.
  - rewrite (executeQuery_allowed query w Hb).
    destruct (client_query query "JSONEachRow" (dbState w)) as [[result|error] db'].
    + destruct (json_Row result); simpl; rewrite !queriesOf_app; simpl;
        now rewrite ?app_nil_r.
    + simpl. rewrite !queriesOf_app. simpl. now rewrite app_nil_r.
Qed.

(** X4. Whatever the query and whatever the database answers,
    [execute-sql] sends at most one statement, and it is the caller's
    text as given: nothing for a blocked query, the query itself
    otherwise. *)
Theorem executeSql_sends_the_query_or_nothing (query : string) (w : World Db) :
  queriesOf (trace (snd (executeSql query w)))
  = queriesOf (trace w) ++ (if isBlocked query then [] else [ query ]).
Proof.
  pose proof (executeQuery_queries query w) as Hq.
  unfold executeSql, tryCatch, mbind, M_bind, bind.
  destruct (executeQuery query w) as [[rows|error] w1]; simpl in *; [exact Hq|].
  run_effects. rewrite queriesOf_app, Hq. simpl. now rewrite app_nil_r.
Qed.

(** X5. No method of the service fails silently: when one of the five
    throws, the last thing it did was [console.error] with that very
    error. *)
Theorem service_failures_are_logged
  (tableName query : string) (w w' : World Db) (error : JsError) :
  listTables cfg w = (Threw error, w')
  \/ getTableSchema cfg tableName w = (Threw error, w')
  \/ executeQuery (Row := Row) query w = (Threw error, w')
  \/ getDatabaseInfo cfg w = (Threw error, w')
  \/ getTableSampleData (Row := Row) cfg tableName w = (Threw error, w') ->
  exists before label, trace w' = before ++ [ EvConsoleError label (Some error) ].
Proof.
  intros [H | [H | [H | [H | H]]]].
  - rewrite listTables_run in H.
    cbv zeta in H.
    destruct (client_query _ _ (dbState w)) as [[result|e] db']; simpl in H.
    + destruct (json_TableRow result); [discriminate|].
      injection H as <- <-. eexists _, _. reflexivity.
    + injection H as <- <-. eexists _, _. reflexivity.
  - rewrite getTableSchema_run in H.
    cbv zeta in H.
    destruct (client_query _ _ (dbState w)) as [[result|e] db']; simpl in H.
    + destruct (json_ColumnInfo result); [discriminate|].
      injection H as <- <-. eexists _, _. reflexivity.
    + injection H as <- <-. eexists _, _. reflexivity.
  - destruct (isBlocked query) eqn:Hb.
    + rewrite (executeQuery_blocked query w Hb) in H.
      injection H as <- <-. eexists _, _. reflexivity.
    + rewrite (executeQuery_allowed query w Hb) in H.
      cbv zeta in H.
    destruct (client_query _ _ (dbState w)) as [[result|e] db']; simpl in H.
      * destruct (json_Row result); [discriminate|].
        injection H as <- <-. eexists _, _. reflexivity.
      * injection H as <- <-. eexists _, _. reflexivity.
  - rewrite getDatabaseInfo_run in H.
    destruct (listTables cfg w) as [[ts|e] w1].
    + destruct (fetchSchemas cfg ts JsObject.empty w1) as [[o|e] w2]; [discriminate|].
      injection H as <- <-. eexists _, _. reflexivity.
    + injection H as <- <-. eexists _, _. reflexivity.
  - rewrite getTableSampleData_run in H.
    cbv zeta in H.
    destruct (client_query _ _ (dbState w)) as [[result|e] db']; simpl in H.
    + destruct (json_Row result); [discriminate|].
      injection H as <- <-. eexists _, _. reflexivity.
    + injection H as <- <-. eexists _, _. reflexivity.
Qed.

(** X6. [listTables] and [getTableSchema] are one round trip each,
    whether they succeed or fail: the statement is [SHOW TABLES FROM
    <database>], respectively [DESCRIBE TABLE <database>.<tableName>]
    with the name spliced in as given (no guard, no quoting); the
    result is the [name] column of the answer in the answer's order,
    respectively the answer's rows unchanged. *)
Theorem metadata_calls_are_single_round_trips (tableName : string) (w : World Db) :
  queriesOf (trace (snd (listTables cfg w)))
  = queriesOf (trace w) ++ [ showTablesText cfg ]
  /\ fst (listTables cfg w)
     = match fst (client_query (showTablesText cfg) "JSONEachRow" (dbState w)) with
       | Returned result =>
           match json_TableRow result with
           | Returned data => Returned (map TableRow.name data)
           | Threw error => Threw error
           end
       | Threw error => Threw error
       end
  /\ queriesOf (trace (snd (getTableSchema cfg tableName w)))
     = queriesOf (trace w) ++ [ describeText cfg tableName ]
  /\ fst (getTableSchema cfg tableName w)
     = match fst (client_query (describeText cfg tableName) "JSONEachRow" (dbState w)) with
       | Returned result => json_ColumnInfo result
       | Threw error => Threw error
       end.
Proof.
  split; [apply listTables_queries|]. split.
  - rewrite listTables_run. unfold showTablesText.
    destruct (client_query _ _ _) as [[result|e] db']; simpl; [|reflexivity].
    now destruct (json_TableRow result).
  - split; [apply getTableSchema_queries|].
    rewrite getTableSchema_run. unfold describeText.
    destruct (client_query _ _ _) as [[result|e] db']; simpl; [|reflexivity].
    now destruct (json_ColumnInfo result).
Qed.

(** X7. A [getDatabaseInfo] call that returns has sent 1 + n statements
    for n listed tables: [SHOW TABLES] first, then one [DESCRIBE TABLE]
    per listed name, in listing order, repeated names included. *)
Theorem getDatabaseInfo_statement_sequence (w w' : World Db) (info : DatabaseInfo) :
  getDatabaseInfo cfg w = (Returned info, w') ->
  queriesOf (trace w')
  = queriesOf (trace w) ++ showTablesText cfg :: map (describeText cfg) (tables info)
  /\ length (queriesOf (trace w'))
     = length (queriesOf (trace w)) + 1 + length (tables info).
Proof.
  intros Hrun. destruct (getDatabaseInfo_queries cfg w) as (described & Hq & Hdone).
  rewrite Hrun in Hq, Hdone. simpl in Hq, Hdone.
  rewrite (Hdone info eq_refl) in Hq. split; [exact Hq|].
  rewrite Hq, length_app. simpl. rewrite List.length_map. lia.
Qed.

(** What the loop leaves under a key: a name that is not fetched, and
    the name [__proto__], keep what the object had; any other fetched
    name holds the schema of its last fetch, made in the world the loop
    had reached after the names before it. *)
Lemma fetchSchemas_last (ts : list string)
  (o o' : JsObject.t (list ColumnInfo.t)) (w w' : World Db) :
  fetchSchemas cfg ts o w = (Returned o', w') ->
  forall k,
    (k ∉ ts \/ k = "__proto__" -> JsObject.getOwn k o' = JsObject.getOwn k o)
    /\ (k ∈ ts -> k <> "__proto__" ->
        exists pre post fetched wa wb cols,
          ts = pre ++ k :: post
          /\ (k ∉ post)
          /\ fetchSchemas cfg pre o w = (Returned fetched, wa)
          /\ getTableSchema cfg k wa = (Returned cols, wb)
          /\ JsObject.getOwn k o' = Some cols).
Proof.
  revert o w. induction ts as [|t ts IH]; intros o w.
  - intros [= <- <-] k. split; [reflexivity|]. intros Hin. now apply elem_of_nil in Hin.
  - rewrite fetchSchemas_cons.
    destruct (getTableSchema cfg t w) as [[schema|error] w1] eqn:Hget; [|discriminate].
    intros Hrest k. destruct (IH _ _ Hrest k) as [Hkeep Hlast].
    assert (Hstep : k <> t \/ k = "__proto__" ->
                    JsObject.getOwn k (JsObject.set t schema o) = JsObject.getOwn k o).
    { intros [Hne | ->].
      - apply getOwn_set_ne. congruence.
      - destruct (decide (t = "__proto__")) as [->|Hne]; [reflexivity|].
        now apply getOwn_set_ne. }
    split.
    + intros Hk. rewrite Hkeep, Hstep; [reflexivity | | ].
      * destruct Hk as [Hk | ->]; [|now right].
        left. intros ->. apply Hk, elem_of_cons. now left.
      * destruct Hk as [Hk | ->]; [|now right].
        left. intros Hin. apply Hk, elem_of_cons. now right.
    + intros Hin Hproto. destruct (decide (k ∈ ts)) as [Hlater | Hnot].
      * destruct (Hlast Hlater Hproto)
          as (pre & post & fetched & wa & wb & cols & -> & Hpost & Hpre & Hk & Hown).
        exists (t :: pre), post, fetched, wa, wb, cols.
        split; [reflexivity|]. split; [exact Hpost|].
        split; [now rewrite fetchSchemas_cons, Hget|]. split; [exact Hk | exact Hown].
      * apply elem_of_cons in Hin as [-> | Hin]; [|contradiction].
        exists [], ts, o, w, w1, schema.
        split; [reflexivity|]. split; [exact Hnot|]. split; [reflexivity|].
        split; [exact Hget|].
        rewrite Hkeep by now left. now apply getOwn_set_eq.
Qed.

(** X8. The [schemas] object of a returned snapshot, read as a map:
    its keys are distinct; it is defined exactly on the listed names
    other than [__proto__]; and under each of them it holds the schema
    that the last [getTableSchema] call of this run for that name
    returned, in the world the loop had reached after fetching the
    names listed before it. *)
Theorem getDatabaseInfo_schemas_as_map (w w' : World Db) (info : DatabaseInfo) :
  getDatabaseInfo cfg w = (Returned info, w') ->
  exists w1,
    listTables cfg w = (Returned (tables info), w1)
    /\ NoDup (JsObject.keys (schemas info))
    /\ dom (JsObject.toMap (schemas info))
       = list_to_set (tables info) ∖ {[ "__proto__" ]}
    /\ forall k,
         k ∈ tables info -> k <> "__proto__" ->
         exists pre post fetched wa wb cols,
           tables info = pre ++ k :: post
           /\ (k ∉ post)
           /\ fetchSchemas cfg pre JsObject.empty w1 = (Returned fetched, wa)
           /\ getTableSchema cfg k wa = (Returned cols, wb)
           /\ JsObject.toMap (schemas info) !! k = Some cols.
Proof.
  intros Hrun.
  destruct (getDatabaseInfo_snapshot _ _ _ _ Hrun) as (_ & Hnd & _ & _).
  pose proof (getDatabaseInfo_dom _ _ _ _ Hrun) as Hdom.
  apply getDatabaseInfo_returned in Hrun as (_ & w1 & Hlist & Hloop).
  exists w1. split; [exact Hlist|]. split; [exact Hnd|]. split; [exact Hdom|].
  intros k Hin Hproto.
  destruct (fetchSchemas_last _ _ _ _ _ Hloop k) as [_ Hlast].
  destruct (Hlast Hin Hproto)
    as (pre & post & fetched & wa & wb & cols & Hsplit & Hpost & Hpre & Hk & Hown).
  exists pre, post, fetched, wa, wb, cols. rewrite toMap_lookup. auto.
Qed.

(** X9. When the listing itself fails, [getDatabaseInfo] throws the
    same error and no [DESCRIBE TABLE] is sent: the only statement is
    the [SHOW TABLES]. *)
Theorem getDatabaseInfo_aborts_on_listing_failure
  (w w1 : World Db) (error : JsError) :
  listTables cfg w = (Threw error, w1) ->
  fst (getDatabaseInfo cfg w) = Threw error
  /\ queriesOf (trace (snd (getDatabaseInfo cfg w)))
     = queriesOf (trace w) ++ [ showTablesText cfg ].
Proof.
  intros Hlist. pose proof (listTables_queries cfg w) as Hq.
  rewrite getDatabaseInfo_run, Hlist. rewrite Hlist in Hq. simpl in *.
  split; [reflexivity|].
  rewrite queriesOf_app, Hq. simpl. now rewrite app_nil_r.
Qed.

End ServiceExtras.

(** ** The adapter, beyond the claims *)

Section AdapterExtras.

Context {Db ResultSet Row : Type} `{!ClickHouseClient Db ResultSet Row}.
Context `{!JSON DatabaseInfo} `{!JSON (list ColumnInfo.t)} `{!JSON (list Row)}.
Variable cfg : Config.

Lemma tableSchemaRead_run (uri : URL) (tableName : TemplateValue) (w : World Db) :
  tableSchemaRead cfg uri tableName w
  = match getTableSchema cfg (tableNameStr tableName) w with
    | (Returned schema, w1) =>
        (Returned {| contents := [ {| rc_uri := href uri;
                                      rc_text := JSON_stringify schema;
                                      rc_mimeType := "application/json" |} ] |}, w1)
    | (Threw error, w1) =>
        (Threw error,
         logged ("Error fetching schema for table "
                 +:+ renderTemplateValue tableName +:+ ":") error w1)
    end.
Proof.
  unfold tableSchemaRead, tryCatch, mbind, M_bind, bind.
  now destruct (getTableSchema cfg (tableNameStr tableName) w) as [[?|?] ?].
Qed.

Lemma tableSampleRead_run (uri : URL) (tableName : TemplateValue) (w : World Db) :
  tableSampleRead cfg uri tableName w
  = match getTableSampleData (Row := Row) cfg (tableNameStr tableName) w with
    | (Returned sampleData, w1) =>
        (Returned {| contents := [ {| rc_uri := href uri;
                                      rc_text := JSON_stringify sampleData;
                                      rc_mimeType := "application/json" |} ] |}, w1)
    | (Threw error, w1) =>
        (Threw error,
         logged ("Error fetching sample data for table "
                 +:+ renderTemplateValue tableName +:+ ":") error w1)
    end.
Proof.
  unfold tableSampleRead, tryCatch, mbind, M_bind, bind.
  now destruct (getTableSampleData cfg (tableNameStr tableName) w) as [[?|?] ?].
Qed.

Lemma getTableSampleData_queries (tableName : string) (w : World Db) :
  queriesOf (trace (snd (getTableSampleData (Row := Row) cfg tableName w)))
  = queriesOf (trace w) ++ [ sampleText cfg tableName ].
Proof.
  rewrite getTableSampleData_run. unfold sampleText, logged, record. cbv zeta.
  destruct (client_query _ _ (dbState w)) as [[result|error] db']; simpl.
  - destruct (json_Row result); simpl; rewrite !queriesOf_app; simpl;
      now rewrite ?app_nil_r.
  - rewrite !queriesOf_app. simpl. now rewrite app_nil_r.
Qed.

(** X13. A table-name variable that arrives as a non-empty array is
    narrowed to its first element for the database: both read handlers
    answer, query the database and leave it exactly as for that element
    given as a plain string, and when the call returns the whole world
    is the same.  The other elements show only when the call fails: the
    handler's [console.error] label then renders the whole array, its
    elements joined by commas. *)
Theorem read_handlers_use_first_array_element
  (uri : URL) (first : string) (others : list string) (w : World Db) :
  fst (tableSchemaRead cfg uri (VArray (first :: others)) w)
  = fst (tableSchemaRead cfg uri (VString first) w)
  /\ fst (tableSampleRead cfg uri (VArray (first :: others)) w)
     = fst (tableSampleRead cfg uri (VString first) w)
  /\ queriesOf (trace (snd (tableSchemaRead cfg uri (VArray (first :: others)) w)))
     = queriesOf (trace w)
       ++ [ "DESCRIBE TABLE " +:+ CLICKHOUSE_DATABASE cfg +:+ "." +:+ first ]
  /\ queriesOf (trace (snd (tableSampleRead cfg uri (VArray (first :: others)) w)))
     = queriesOf (trace w)
       ++ [ "SELECT * FROM " +:+ CLICKHOUSE_DATABASE cfg +:+ "." +:+ first +:+ " LIMIT 5" ]
  /\ dbState (snd (tableSchemaRead cfg uri (VArray (first :: others)) w))
     = dbState (snd (tableSchemaRead cfg uri (VString first) w))
  /\ dbState (snd (tableSampleRead cfg uri (VArray (first :: others)) w))
     = dbState (snd (tableSampleRead cfg uri (VString first) w))
  /\ snd (tableSchemaRead cfg uri (VArray (first :: others)) w)
     = match getTableSchema cfg first w with
       | (Returned _, w1) => w1
       | (Threw error, w1) =>
           {| dbState := dbState w1;
              trace := trace w1
                       ++ [ EvConsoleError
                              ("Error fetching schema for table "
                               +:+ String.concat "," (first :: others) +:+ ":")
                              (Some error) ] |}
       end
  /\ snd (tableSchemaRead cfg uri (VString first) w)
     = match getTableSchema cfg first w with
       | (Returned _, w1) => w1
       | (Threw error, w1) =>
           {| dbState := dbState w1;
              trace := trace w1
                       ++ [ EvConsoleError
                              ("Error fetching schema for table " +:+ first +:+ ":")
                              (Some error) ] |}
       end
  /\ snd (tableSampleRead cfg uri (VArray (first :: others)) w)
     = match getTableSampleData (Row := Row) cfg first w with
       | (Returned _, w1) => w1
       | (Threw error, w1) =>
           {| dbState := dbState w1;
              trace := trace w1
                       ++ [ EvConsoleError
                              ("Error fetching sample data for table "
                               +:+ String.concat "," (first :: others) +:+ ":")
                              (Some error) ] |}
       end
  /\ snd (tableSampleRead cfg uri (VString first) w)
     = match getTableSampleData (Row := Row) cfg first w with
       | (Returned _, w1) => w1
       | (Threw error, w1) =>
           {| dbState := dbState w1;
              trace := trace w1
                       ++ [ EvConsoleError
                              ("Error fetching sample data for table " +:+ first +:+ ":")
                              (Some error) ] |}
       end.
Proof.
  rewrite !tableSchemaRead_run, !tableSampleRead_run. cbn [tableNameStr nth].
  pose proof (getTableSchema_queries cfg first w) as Hs.
  pose proof (getTableSampleData_queries first w) as Hd.
  unfold describeText in Hs. unfold sampleText in Hd.
  destruct (getTableSchema cfg first w) as [[schema|e1] w1];
    destruct (getTableSampleData cfg first w) as [[rows|e2] w2];
    simpl in *; rewrite ?queriesOf_app, ?Hs, ?Hd; simpl; rewrite ?app_nil_r;
    repeat split; reflexivity.
Qed.

(** X14. The two [list] callbacks have no [catch]: when the listing
    fails they fail with the same error, in the world [listTables] left,
    without any message of their own. *)
Theorem template_lists_propagate_listing_failure
  (w w1 : World Db) (error : JsError) :
  listTables cfg w = (Threw error, w1) ->
  tableSchemaList cfg w = (Threw error, w1)
  /\ tableSampleList cfg w = (Threw error, w1).
Proof.
  intros Hlist. unfold tableSchemaList, tableSampleList, mbind, M_bind, bind.
  now rewrite Hlist.
Qed.

(** X15. The [isError] flag of a tool response tells exactly whether
    the underlying call failed: it is [true] when [executeQuery]
    (respectively [getDatabaseInfo]) threw, and absent when it returned. *)
Theorem tool_error_flag_tells_failure (query question : string) (w : World Db) :
  (exists r, fst (executeSql query w) = Returned r
             /\ (isError r = Some true
                 <-> exists e, fst (executeQuery (Row := Row) query w) = Threw e)
             /\ (isError r = None
                 <-> exists rows, fst (executeQuery (Row := Row) query w) = Returned rows))
  /\ (exists r, fst (naturalLanguageQuery cfg question w) = Returned r
                /\ (isError r = Some true
                    <-> exists e, fst (getDatabaseInfo cfg w) = Threw e)
                /\ (isError r = None
                    <-> exists info, fst (getDatabaseInfo cfg w) = Returned info)).
Proof.
  unfold executeSql, naturalLanguageQuery, tryCatch, mbind, M_bind, bind. split.
  - destruct (executeQuery query w) as [[rows|e] w1]; simpl; eexists;
      (split; [reflexivity|]); simpl; split; split;
      try discriminate; try (intros [? ?]; discriminate); eauto.
  - destruct (getDatabaseInfo cfg w) as [[info|e] w1]; simpl; eexists;
      (split; [reflexivity|]); simpl; split; split;
      try discriminate; try (intros [? ?]; discriminate); eauto.
Qed.

End AdapterExtras.

(** ** Start-up, beyond the claims *)

Lemma falsy_false (value : option string) :
  falsy value = false <-> exists s, value = Some s /\ s <> EmptyString.
Proof.
  destruct value as [s|]; simpl.
  - destruct (String.eqb_spec s EmptyString) as [->|Hne].
    + split; [discriminate | intros (s & [= <-] & Hs); contradiction].
    + split; [eauto | reflexivity].
  - split; [discriminate | intros (s & Hs & _); discriminate].
Qed.

(** X16. The configuration loads exactly when the four variables are
    all set to non-empty strings, and then it carries their values; a
    variable set to the empty string counts as missing. *)
Theorem loadConfig_succeeds_iff (env : gmap string string) (cfg : Config) :
  loadConfig env = Returned cfg
  <-> (env !! "CLICKHOUSE_URL" = Some (CLICKHOUSE_URL cfg)
       /\ env !! "CLICKHOUSE_USERNAME" = Some (CLICKHOUSE_USERNAME cfg)
       /\ env !! "CLICKHOUSE_PASSWORD" = Some (CLICKHOUSE_PASSWORD cfg)
       /\ env !! "CLICKHOUSE_DATABASE" = Some (CLICKHOUSE_DATABASE cfg))
      /\ CLICKHOUSE_URL cfg <> EmptyString
      /\ CLICKHOUSE_USERNAME cfg <> EmptyString
      /\ CLICKHOUSE_PASSWORD cfg <> EmptyString
      /\ CLICKHOUSE_DATABASE cfg <> EmptyString.
Proof.
  unfold loadConfig. split.
  - destruct (falsy (env !! "CLICKHOUSE_URL")) eqn:H1; [discriminate|].
    destruct (falsy (env !! "CLICKHOUSE_USERNAME")) eqn:H2; [discriminate|].
    destruct (falsy (env !! "CLICKHOUSE_PASSWORD")) eqn:H3; [discriminate|].
    destruct (falsy (env !! "CLICKHOUSE_DATABASE")) eqn:H4; [discriminate|].
    apply falsy_false in H1 as (s1 & E1 & N1), H2 as (s2 & E2 & N2),
      H3 as (s3 & E3 & N3), H4 as (s4 & E4 & N4).
    rewrite E1, E2, E3, E4. simpl. intros [= <-]. simpl. tauto.
  - intros ((E1 & E2 & E3 & E4) & N1 & N2 & N3 & N4).
    rewrite E1, E2, E3, E4. simpl.
    destruct (String.eqb_spec (CLICKHOUSE_URL cfg) EmptyString); [contradiction|].
    destruct (String.eqb_spec (CLICKHOUSE_USERNAME cfg) EmptyString); [contradiction|].
    destruct (String.eqb_spec (CLICKHOUSE_PASSWORD cfg) EmptyString); [contradiction|].
    destruct (String.eqb_spec (CLICKHOUSE_DATABASE cfg) EmptyString); [contradiction|].
    simpl. now destruct cfg.
Qed.


(** ** Runs for the further properties *)

Lemma guard_blocks_keyword_anywhere_witness :
  JsString.toLowerCase "Update" ∈ blockedKeywords
  /\ isBlocked ("SELECT '" +:+ "Update" +:+ "' AS status") = true.
Proof.
  assert (Hkw : JsString.toLowerCase "Update" ∈ blockedKeywords).
  { apply list_elem_of_In. simpl. auto. }
  split; [exact Hkw|].
  apply (guard_blocks_keyword_anywhere "SELECT '" "Update" "' AS status" Hkw).
Defined.

Lemma guard_monotone_witness :
  isBlocked "DROP TABLE events" = true
  /\ isBlocked ("SELECT 1; " +:+ "DROP TABLE events" +:+ " -- tidy up") = true.
Proof.
  assert (Hb : isBlocked "DROP TABLE events" = true) by reflexivity.
  split; [exact Hb|].
  apply (guard_monotone "SELECT 1; " "DROP TABLE events" " -- tidy up" Hb).
Defined.

Lemma service_failures_are_logged_witness :
  let w := Double.start Double.unreachable in
  let w' := snd (@listTables _ _ _ Double.scripted Double.analyticsCfg w) in
  @listTables _ _ _ Double.scripted Double.analyticsCfg w
  = (Threw (ErrorObject "socket hang up"), w')
  /\ exists before label,
       trace w' = before ++ [ EvConsoleError label (Some (ErrorObject "socket hang up")) ].
Proof.
  intros w w'.
  assert (Hrun : @listTables _ _ _ Double.scripted Double.analyticsCfg w
                 = (Threw (ErrorObject "socket hang up"), w')) by reflexivity.
  split; [exact Hrun|].
  apply (@service_failures_are_logged _ _ _ Double.scripted Double.analyticsCfg
           "events" "SELECT 1" w w' (ErrorObject "socket hang up")).
  left. exact Hrun.
Defined.

Lemma getDatabaseInfo_statement_sequence_witness :
  let w := Double.start Double.analytics in
  let w' := snd (@getDatabaseInfo _ _ _ Double.engine Double.analyticsCfg w) in
  @getDatabaseInfo _ _ _ Double.engine Double.analyticsCfg w
  = (Returned Double.analyticsInfo, w')
  /\ queriesOf (trace w')
     = queriesOf (trace w)
       ++ showTablesText Double.analyticsCfg
          :: map (describeText Double.analyticsCfg) (tables Double.analyticsInfo)
  /\ length (queriesOf (trace w'))
     = length (queriesOf (trace w)) + 1 + length (tables Double.analyticsInfo).
Proof.
  intros w w'.
  assert (Hrun : @getDatabaseInfo _ _ _ Double.engine Double.analyticsCfg w
                 = (Returned Double.analyticsInfo, w')) by reflexivity.
  split; [exact Hrun|].
  apply (@getDatabaseInfo_statement_sequence _ _ _ Double.engine Double.analyticsCfg
           w w' Double.analyticsInfo Hrun).
Defined.

Lemma getDatabaseInfo_schemas_as_map_witness :
  let w := Double.start Double.analyticsWithProto in
  let w' := snd (@getDatabaseInfo _ _ _ Double.engine Double.analyticsCfg w) in
  let info :=
    {| database := "analytics";
       tables := [ "events"; "users"; "__proto__" ];
       schemas :=
         JsObject.mk
           [ ("events", [ Double.col "id" "UInt64"; Double.col "ts" "DateTime" ]);
             ("users", [ Double.col "id" "UInt64"; Double.col "name" "String" ]) ]
           (Some [ Double.col "id" "UInt64" ]) |} in
  @getDatabaseInfo _ _ _ Double.engine Double.analyticsCfg w = (Returned info, w')
  /\ exists w1,
       @listTables _ _ _ Double.engine Double.analyticsCfg w = (Returned (tables info), w1)
       /\ NoDup (JsObject.keys (schemas info))
       /\ dom (JsObject.toMap (schemas info))
          = list_to_set (tables info) ∖ {[ "__proto__" ]}
       /\ forall k,
            k ∈ tables info -> k <> "__proto__" ->
            exists pre post fetched wa wb cols,
              tables info = pre ++ k :: post
              /\ (k ∉ post)
              /\ @fetchSchemas _ _ _ Double.engine Double.analyticsCfg pre
                   JsObject.empty w1 = (Returned fetched, wa)
              /\ @getTableSchema _ _ _ Double.engine Double.analyticsCfg k wa
                 = (Returned cols, wb)
              /\ JsObject.toMap (schemas info) !! k = Some cols.
Proof.
  intros w w' info.
  assert (Hrun : @getDatabaseInfo _ _ _ Double.engine Double.analyticsCfg w
                 = (Returned info, w')) by reflexivity.
  split; [exact Hrun|].
  apply (@getDatabaseInfo_schemas_as_map _ _ _ Double.engine Double.analyticsCfg
           w w' info Hrun).
Defined.

Lemma getDatabaseInfo_aborts_on_listing_failure_witness :
  let w := Double.start Double.unreachable in
  let w1 := snd (@listTables _ _ _ Double.scripted Double.analyticsCfg w) in
  @listTables _ _ _ Double.scripted Double.analyticsCfg w
  = (Threw (ErrorObject "socket hang up"), w1)
  /\ fst (@getDatabaseInfo _ _ _ Double.scripted Double.analyticsCfg w)
     = Threw (ErrorObject "socket hang up")
  /\ queriesOf (trace (snd (@getDatabaseInfo _ _ _ Double.scripted Double.analyticsCfg w)))
     = queriesOf (trace w) ++ [ showTablesText Double.analyticsCfg ].
Proof.
  intros w w1.
  assert (Hlist : @listTables _ _ _ Double.scripted Double.analyticsCfg w
                  = (Threw (ErrorObject "socket hang up"), w1)) by reflexivity.
  split; [exact Hlist|].
  apply (@getDatabaseInfo_aborts_on_listing_failure _ _ _ Double.scripted
           Double.analyticsCfg w w1 (ErrorObject "socket hang up") Hlist).
Defined.

Lemma naturalLanguageQuery_answer_witness :
  let w := Double.start Double.analytics in
  let w' := snd (@getDatabaseInfo _ _ _ Double.engine Double.analyticsCfg w) in
  let q := String "034"%char EmptyString in
  @getDatabaseInfo _ _ _ Double.engine Double.analyticsCfg w
  = (Returned Double.analyticsInfo, w')
  /\ exists text,
       @naturalLanguageQuery _ _ _ Double.engine Double.analyticsCfg
         "how many users signed up last week?" w
       = (Returned {| content := [ {| tc_type := "text"; tc_text := text |} ];
                      isError := None |}, w')
       /\ JsString.Substring "how many users signed up last week?" text
       /\ JsString.Substring
            ("You can execute specific SQL queries using the " +:+ q
             +:+ "execute-sql" +:+ q +:+ " tool.") text
       /\ (forall k cols,
             JsObject.getOwn k (schemas Double.analyticsInfo) = Some cols ->
             JsString.Substring
               ("Table " +:+ q +:+ k +:+ q +:+ " has columns: "
                +:+ String.concat ", "
                      (map (fun c => ColumnInfo.name c +:+ " (" +:+ ColumnInfo.type c
                                     +:+ ")")
                           cols))
               text).
Proof.
  intros w w' q.
  assert (Hrun : @getDatabaseInfo _ _ _ Double.engine Double.analyticsCfg w
                 = (Returned Double.analyticsInfo, w')) by reflexivity.
  split; [exact Hrun|].
  apply (@naturalLanguageQuery_answer _ _ _ Double.engine Double.analyticsCfg
           "how many users signed up last week?" w w' Double.analyticsInfo Hrun).
Defined.

(** The line of the specification's scenario, character by character. *)
Example naturalLanguageQuery_users_line :
  exists text w',
    @naturalLanguageQuery _ _ _ Double.engine Double.analyticsCfg
      "how many users signed up last week?" (Double.start Double.analytics)
    = (Returned {| content := [ {| tc_type := "text"; tc_text := text |} ];
                   isError := None |}, w')
    /\ JsString.includes text
         ("Table " +:+ String "034"%char "users"
          +:+ String "034"%char " has columns: id (UInt64), name (String)")
       = true.
Proof. eexists _, _. split; [reflexivity|]. vm_compute. reflexivity. Qed.

Lemma template_lists_propagate_listing_failure_witness :
  let w := Double.start Double.unreachable in
  let w1 := snd (@listTables _ _ _ Double.scripted Double.analyticsCfg w) in
  @listTables _ _ _ Double.scripted Double.analyticsCfg w
  = (Threw (ErrorObject "socket hang up"), w1)
  /\ @tableSchemaList _ _ _ Double.scripted Double.analyticsCfg w
     = (Threw (ErrorObject "socket hang up"), w1)
  /\ @tableSampleList _ _ _ Double.scripted Double.analyticsCfg w
     = (Threw (ErrorObject "socket hang up"), w1).
Proof.
  intros w w1.
  assert (Hlist : @listTables _ _ _ Double.scripted Double.analyticsCfg w
                  = (Threw (ErrorObject "socket hang up"), w1)) by reflexivity.
  split; [exact Hlist|].
  apply (@template_lists_propagate_listing_failure _ _ _ Double.scripted
           Double.analyticsCfg w w1 (ErrorObject "socket hang up") Hlist).
Defined.

(** ** How the paths relate *)

Section PathRelations.

Context {Db ResultSet Row : Type} `{!ClickHouseClient Db ResultSet Row}.
Variable cfg : Config.

(** X18. The question has no influence on what [natural-language-query]
    does: two questions asked in the same world leave the same world
    behind, trace and database alike, and give the same error response
    whenever the snapshot fails. *)
Theorem naturalLanguageQuery_question_noninterference
  (question1 question2 : string) (w : World Db) :
  snd (naturalLanguageQuery cfg question1 w) = snd (naturalLanguageQuery cfg question2 w)
  /\ (forall error,
        fst (getDatabaseInfo cfg w) = Threw error ->
        fst (naturalLanguageQuery cfg question1 w)
        = fst (naturalLanguageQuery cfg question2 w)).
Proof.
  unfold naturalLanguageQuery, tryCatch, mbind, M_bind, bind.
  destruct (getDatabaseInfo cfg w) as [[info|e] w1]; simpl.
  - split; [reflexivity | discriminate].
  - split; reflexivity.
Qed.

(** X19. Sampling a table is the same as running the statement
    [SELECT * FROM <db>.<tableName> LIMIT 5] through [executeQuery],
    provided that text passes the guard: same result, same statement
    sent, same database afterwards. *)
Theorem getTableSampleData_is_executeQuery (tableName : string) (w : World Db) :
  isBlocked (sampleText cfg tableName) = false ->
  fst (getTableSampleData (Row := Row) cfg tableName w)
  = fst (executeQuery (Row := Row) (sampleText cfg tableName) w)
  /\ queriesOf (trace (snd (getTableSampleData (Row := Row) cfg tableName w)))
     = queriesOf (trace (snd (executeQuery (Row := Row) (sampleText cfg tableName) w)))
  /\ dbState (snd (getTableSampleData (Row := Row) cfg tableName w))
     = dbState (snd (executeQuery (Row := Row) (sampleText cfg tableName) w)).
Proof.
  intros Hb. rewrite getTableSampleData_run, (executeQuery_allowed _ w Hb).
  unfold sampleText, logged, record. cbv zeta.
  destruct (client_query _ _ (dbState w)) as [[result|error] db']; simpl.
  - destruct (json_Row result); simpl; rewrite ?queriesOf_app; auto.
  - rewrite ?queriesOf_app. auto.
Qed.

(** X20. The guard sits on the raw-SQL path only.  For a table whose
    name contains a word that lower-cases to a blocked keyword (a table
    [updates], say), the sample and schema paths send their statements
    all the same, while the very statement of the sample is refused by
    [executeQuery] before it reaches the database. *)
Theorem keyword_in_table_name_blocks_sql_path_only
  (before word after : string) (w : World Db) :
  JsString.toLowerCase word ∈ blockedKeywords ->
  let tableName := before +:+ word +:+ after in
  queriesOf (trace (snd (getTableSampleData (Row := Row) cfg tableName w)))
  = queriesOf (trace w) ++ [ sampleText cfg tableName ]
  /\ queriesOf (trace (snd (getTableSchema cfg tableName w)))
     = queriesOf (trace w) ++ [ describeText cfg tableName ]
  /\ fst (executeQuery (Row := Row) (sampleText cfg tableName) w)
     = Threw (ErrorObject "Only read-only queries are allowed")
  /\ queriesOf (trace (snd (executeQuery (Row := Row) (sampleText cfg tableName) w)))
     = queriesOf (trace w).
Proof.
  intros Hkw tableName.
  assert (Hb : isBlocked (sampleText cfg tableName) = true).
  { unfold sampleText, tableName.
    replace ("SELECT * FROM " +:+ CLICKHOUSE_DATABASE cfg +:+ "."
             +:+ (before +:+ word +:+ after) +:+ " LIMIT 5")
      with (("SELECT * FROM " +:+ CLICKHOUSE_DATABASE cfg +:+ "." +:+ before)
            +:+ word +:+ (after +:+ " LIMIT 5"))
      by now rewrite !append_assoc.
    apply isBlocked_substring. exists (JsString.toLowerCase word).
    split; [exact Hkw|]. rewrite !toLowerCase_app. eexists _, _. reflexivity. }
  split.
  - pose proof (getTableSampleData_run (Row := Row) cfg tableName w) as Hrun.
    rewrite Hrun. unfold sampleText, logged, record. cbv zeta.
    destruct (client_query _ _ (dbState w)) as [[result|error] db']; simpl.
    + destruct (json_Row result); simpl; rewrite !queriesOf_app; simpl;
        now rewrite ?app_nil_r.
    + rewrite !queriesOf_app. simpl. now rewrite app_nil_r.
  - split; [apply getTableSchema_queries|].
    rewrite (executeQuery_blocked _ w Hb). simpl. split; [reflexivity|].
    rewrite queriesOf_app. simpl. now rewrite app_nil_r.
Qed.

End PathRelations.

Lemma getTableSampleData_is_executeQuery_witness :
  let w := Double.start Double.analytics in
  isBlocked (sampleText Double.analyticsCfg "events") = false
  /\ fst (@getTableSampleData _ _ _ Double.engine Double.analyticsCfg "events" w)
     = fst (@executeQuery _ _ _ Double.engine (sampleText Double.analyticsCfg "events") w)
  /\ queriesOf (trace (snd (@getTableSampleData _ _ _ Double.engine
                              Double.analyticsCfg "events" w)))
     = queriesOf (trace (snd (@executeQuery _ _ _ Double.engine
                                (sampleText Double.analyticsCfg "events") w)))
  /\ dbState (snd (@getTableSampleData _ _ _ Double.engine
                     Double.analyticsCfg "events" w))
     = dbState (snd (@executeQuery _ _ _ Double.engine
                       (sampleText Double.analyticsCfg "events") w)).
Proof.
  intros w.
  assert (Hb : isBlocked (sampleText Double.analyticsCfg "events") = false)
    by reflexivity.
  split; [exact Hb|].
  apply (@getTableSampleData_is_executeQuery _ _ _ Double.engine Double.analyticsCfg
           "events" w Hb).
Defined.

Lemma keyword_in_table_name_blocks_sql_path_only_witness :
  let w := Double.start Double.analytics in
  JsString.toLowerCase "update" ∈ blockedKeywords
  /\ queriesOf (trace (snd (@getTableSampleData _ _ _ Double.engine
                              Double.analyticsCfg "updates" w)))
     = [ "SELECT * FROM analytics.updates LIMIT 5" ]
  /\ fst (@executeQuery _ _ _ Double.engine
            "SELECT * FROM analytics.updates LIMIT 5" w)
     = Threw (ErrorObject "Only read-only queries are allowed").
Proof.
  intros w.
  assert (Hkw : JsString.toLowerCase "update" ∈ blockedKeywords).
  { apply list_elem_of_In. simpl. auto. }
  split; [exact Hkw|].
  destruct (@keyword_in_table_name_blocks_sql_path_only _ _ _ Double.engine
              Double.analyticsCfg EmptyString "update" "s" w Hkw)
    as (Hsample & _ & Hrefused & _).
  split; [exact Hsample | exact Hrefused].
Defined.

(** A thrown value that is no [Error]: the tools report its string form,
    the resources throw it on as it is. *)
Example thrown_value_scenario :
  let w := Double.start [ Threw (ThrownValue "ECONNRESET") ] in
  fst (@executeSql _ _ _ Double.scripted Double.jsonRows "SELECT 1" w)
  = Returned {| content := [ {| tc_type := "text"; tc_text := "Error: ECONNRESET" |} ];
                isError := Some true |}
  /\ fst (@naturalLanguageQuery _ _ _ Double.scripted Double.analyticsCfg
            "which tables are there?" w)
     = Returned {| content := [ {| tc_type := "text"; tc_text := "Error: ECONNRESET" |} ];
                   isError := Some true |}
  /\ fst (@tableSchemaRead _ _ _ Double.scripted Double.jsonColumns Double.analyticsCfg
            {| href := "table://events/schema" |} (VString "events") w)
     = Threw (ThrownValue "ECONNRESET").
Proof. intros w. repeat split; reflexivity. Qed.
